(** * MOCA patient portal: cart, checkout and order lifecycle

    A shallow embedding of the logic of
    - [src/app/dashboard/page.tsx]        (cart, patient order view),
    - [src/app/checkout/page.tsx]         (order creation),
    - [src/app/admin/dashboard/page.tsx]  (status transitions, tracking numbers).

    Conventions of the embedding.
    - A JavaScript [number] is an IEEE 754 binary64 value: [spec_float] with
      precision 53 and maximal exponent 1024, with the operations of
      [SpecFloat] (round to nearest, ties to even).
    - A JavaScript string is a [string]; [===] on strings is [String.eqb].
    - [null] in a field of type [T | null] is [None].
    - React state ([cart], [cartItems], [orders]) is passed explicitly: a
      handler takes the state it closes over and returns the state it sets.
    - [localStorage] is a record with one slot per key the pages use.  A slot
      holds what [JSON.parse] makes of the stored text; writing
      [JSON.stringify v] and reading it back is taken to give [v] again
      (which is so for the records stored here as long as their numbers are
      finite and none is the negative zero).
    - [alert] is modelled by returning the message shown.
    - The clock, [Math.random()] and the reading of dates belong to the
      browser: [Date.now()], [new Date().toISOString()] and the random
      number are arguments of the handlers that use them, and
      [new Date(s).getTime()] is a parameter [getTime] of the views. *)

From Stdlib Require Import ZArith List String Ascii Bool Lia.
From Stdlib Require Import Permutation Sorted.
From Stdlib Require Import Floats.SpecFloat.
Import ListNotations.
Open Scope string_scope.
Open Scope list_scope.

(** ** JavaScript numbers *)

Module Num.

Definition prec : Z := 53.
Definition emax : Z := 1024.

Definition number : Type := spec_float.

Definition add : number -> number -> number := SFadd prec emax.
Definition mul : number -> number -> number := SFmul prec emax.
Definition div : number -> number -> number := SFdiv prec emax.

(** The number denoted by an integer literal. *)
Definition of_Z (z : Z) : number := binary_normalize prec emax z 0 false.

(** The number denoted by the decimal literal whose digits, read without
    the point, are [n] and which has [k] digits after the point: the
    binary64 value nearest to [n / 10^k]. *)
Definition decimal (n : Z) (k : nat) : number :=
  div (of_Z n) (of_Z (10 ^ Z.of_nat k)).

Definition zero : number := S754_zero false.

(** [x === y] and [x > y] on numbers. *)
Definition eqb (x y : number) : bool := SFeqb x y.
Definition gtb (x y : number) : bool := SFltb y x.

Definition is_nan (x : number) : bool :=
  match x with S754_nan => true | _ => false end.

End Num.

Definition number : Type := Num.number.

(** ** Data model *)

(** [status: 'active' | 'expired' | 'used'] of a prescription. *)
Inductive PrescriptionStatus : Type := active | expired | used.

Definition PrescriptionStatus_eqb (a b : PrescriptionStatus) : bool :=
  match a, b with
  | active, active | expired, expired | used, used => true
  | _, _ => false
  end.

Module Prescription.
Record t : Type := mk {
  id : string;
  name : string;
  strength : string;
  quantity : number;
  repeats : number;
  prescribedDate : string;
  expiryDate : string;
  status : PrescriptionStatus;
  interval : string;
  price : number
}.
End Prescription.

Module CartItem.
Record t : Type := mk {
  prescription : Prescription.t;
  quantitySelected : number
}.
End CartItem.

(** ** The patient dashboard: catalogue and cart *)

(** What a handler lets the user see when it is done. *)
Inductive effect : Type :=
  | Silent                      (* returns without telling the user anything *)
  | Alert (message : string)    (* [alert(message)] *)
  | Navigate (path : string).   (* [router.push(path)] *)

Definition rx001 : Prescription.t :=
  {| Prescription.id := "rx-001";
     Prescription.name := "Paracetamol";
     Prescription.strength := "500mg";
     Prescription.quantity := Num.of_Z 20;
     Prescription.repeats := Num.of_Z 3;
     Prescription.prescribedDate := "2024-01-15";
     Prescription.expiryDate := "2024-07-15";
     Prescription.status := active;
     Prescription.interval := "As needed, up to 4 times daily";
     Prescription.price := Num.decimal 1250 2 |}.

Definition rx002 : Prescription.t :=
  {| Prescription.id := "rx-002";
     Prescription.name := "Ibuprofen";
     Prescription.strength := "200mg";
     Prescription.quantity := Num.of_Z 30;
     Prescription.repeats := Num.of_Z 2;
     Prescription.prescribedDate := "2024-02-01";
     Prescription.expiryDate := "2024-08-01";
     Prescription.status := active;
     Prescription.interval := "Twice daily with food";
     Prescription.price := Num.decimal 1580 2 |}.

Definition rx003 : Prescription.t :=
  {| Prescription.id := "rx-003";
     Prescription.name := "Vitamin D";
     Prescription.strength := "1000IU";
     Prescription.quantity := Num.of_Z 60;
     Prescription.repeats := Num.of_Z 0;
     Prescription.prescribedDate := "2023-12-01";
     Prescription.expiryDate := "2024-06-01";
     Prescription.status := used;
     Prescription.interval := "Once daily";
     Prescription.price := Num.decimal 890 2 |}.

Definition mockPrescriptions : list Prescription.t := [rx001; rx002; rx003].

(** [item.prescription.id === prescription.id] *)
Definition same_prescription (p : Prescription.t) (item : CartItem.t) : bool :=
  (Prescription.id (CartItem.prescription item) =? Prescription.id p)%string.

(** [{ ...item, quantitySelected: item.quantitySelected + prescription.quantity }] *)
Definition bump (p : Prescription.t) (item : CartItem.t) : CartItem.t :=
  CartItem.mk (CartItem.prescription item)
    (Num.add (CartItem.quantitySelected item) (Prescription.quantity p)).

(** [addToCart]: the cart the handler sets (the cart it was given when it
    sets none) and the message it alerts. *)
Definition addToCart (cart : list CartItem.t) (p : Prescription.t)
  : list CartItem.t * effect :=
  if negb (PrescriptionStatus_eqb (Prescription.status p) active)
     || Num.eqb (Prescription.repeats p) Num.zero
  then (cart, Alert "This prescription cannot be ordered")
  else
    match find (same_prescription p) cart with
    | Some _ =>
        (map (fun item => if same_prescription p item then bump p item else item) cart,
         Alert "Quantity updated in cart")
    | None =>
        (cart ++ [CartItem.mk p (Prescription.quantity p)], Alert "Added to cart!")
    end.

(** [cart.reduce((total, item) => total + item.prescription.price * item.quantitySelected, 0)] *)
Definition line_total (item : CartItem.t) : number :=
  Num.mul (Prescription.price (CartItem.prescription item)) (CartItem.quantitySelected item).

Definition cartTotal (cart : list CartItem.t) : number :=
  fold_left (fun total item => Num.add total (line_total item)) cart Num.zero.

(** ** Printing integers

    [`${n}`] for an integral number [n] of magnitude below [10^21] is its
    decimal numeral, with a minus sign when negative. *)

Definition digit_char (d : Z) : ascii :=
  ascii_of_nat (48 + Z.to_nat d).

Fixpoint decimal_digits (fuel : nat) (n : Z) (acc : string) : string :=
  match fuel with
  | O => acc
  | S fuel' =>
      let acc' := String (digit_char (n mod 10)) acc in
      if n <? 10 then acc' else decimal_digits fuel' (n / 10) acc'
  end%Z.

Definition string_of_Z (n : Z) : string :=
  if (n <? 0)%Z
  then "-" ++ decimal_digits (S (Z.to_nat (Z.log2 (- n)))) (- n) ""
  else decimal_digits (S (Z.to_nat (Z.log2 n))) n "".

(** ** Orders and the browser store *)

Module Order.
Record t : Type := mk {
  id : string;
  patientEmail : option string;
  items : list CartItem.t;
  subtotal : number;
  shippingFee : number;
  total : number;
  status : string;
  createdAt : string;
  paymentMethod : string;
  shippingAddress : string;
  trackingNumber : option string
}.
End Order.

(** What a handler finds under a key that holds JSON text. *)
Inductive stored (A : Type) : Type :=
  | Absent                (* [getItem] gives [null] or the empty string *)
  | Malformed             (* text that [JSON.parse] or the first use rejects *)
  | Json (value : A).     (* text that parses to [value] *)

Arguments Absent {A}.
Arguments Malformed {A}.
Arguments Json {A} value.

Record LocalStorage : Type := mkStorage {
  userEmail : option string;
  cartItems : stored (list CartItem.t);
  allOrders : stored (list Order.t);
  currentOrder : stored Order.t
}.

Definition freshStorage : LocalStorage :=
  mkStorage None Absent Absent Absent.

(** [proceedToCheckout]: refuses an empty cart, else stores the cart under
    ["cartItems"] and navigates to the checkout page.  The slot holds what
    the written text parses to; that is the cart itself when each of its
    numbers is finite and no negative zero ([cartExact] below), which the
    properties about the stored cart assume. *)
Definition proceedToCheckout (cart : list CartItem.t) (ls : LocalStorage)
  : LocalStorage * effect :=
  match cart with
  | [] => (ls, Alert "Your cart is empty")
  | _ :: _ =>
      (mkStorage (userEmail ls) (Json cart) (allOrders ls) (currentOrder ls),
       Navigate "/checkout")
  end.

(** ** Checkout *)

(** The cart the checkout page holds after mounting: what ["cartItems"]
    parses to, and the empty initial state otherwise. *)
Definition checkoutCart (ls : LocalStorage) : list CartItem.t :=
  match cartItems ls with
  | Json cart => cart
  | _ => []
  end.

Definition subtotal (cartItems : list CartItem.t) : number :=
  fold_left (fun total item => Num.add total (line_total item)) cartItems Num.zero.

Definition shippingFee : number := Num.decimal 3300 2.

Definition total (cartItems : list CartItem.t) : number :=
  Num.add (subtotal cartItems) shippingFee.

(** The [order] object [handlePayment] builds; [now] is what [Date.now()]
    reads and [nowISO] what [new Date().toISOString()] gives. *)
Definition newOrder (cartItems : list CartItem.t) (now : Z) (nowISO : string)
    (email : option string) : Order.t :=
  {| Order.id := "MOCA-" ++ string_of_Z now;
     Order.patientEmail := email;
     Order.items := cartItems;
     Order.subtotal := subtotal cartItems;
     Order.shippingFee := shippingFee;
     Order.total := total cartItems;
     Order.status := "awaiting_payment";
     Order.createdAt := nowISO;
     Order.paymentMethod := "Power Board";
     Order.shippingAddress := "Mock Address";
     Order.trackingNumber := None |}.

(** [handlePayment], after its simulated delay.  The two slots hold what
    the written text parses to; for the new order that is [order] itself
    when the numbers of the cart, the subtotal and the total are finite and
    no negative zero, which the properties about the stored order assume. *)
Definition handlePayment (cartItems : list CartItem.t) (now : Z) (nowISO : string)
    (ls : LocalStorage) : LocalStorage * effect :=
  let order := newOrder cartItems now nowISO (userEmail ls) in
  let placed orders :=
    (mkStorage (userEmail ls) Absent (Json (orders ++ [order])) (Json order),
     Navigate "/order-success") in
  match allOrders ls with
  | Absent => placed []
  | Json orders => placed orders
  | Malformed => (ls, Alert "Payment failed. Please try again.")
  end.

(** ** [Array.prototype.sort]

    The sort is stable, and with a comparator that orders the elements
    consistently its result is fixed by that; a stable insertion sort stands
    for it.  [cmp x y < 0] puts [x] first, [cmp x y > 0] puts [y] first and
    [cmp x y = 0] keeps the two as they were. *)

Section ArraySort.
Variable A : Type.
Variable cmp : A -> A -> Z.

Fixpoint insert_before (x : A) (l : list A) : list A :=
  match l with
  | [] => [x]
  | y :: l' => if (0 <? cmp x y)%Z then y :: insert_before x l' else x :: l
  end.

Fixpoint Array_sort (l : list A) : list A :=
  match l with
  | [] => []
  | x :: l' => insert_before x (Array_sort l')
  end.
End ArraySort.

Arguments insert_before {A} cmp x l.
Arguments Array_sort {A} cmp l.

(** The comparator [(a, b) => key(b) - key(a)]: largest key first. *)
Definition byKeyDescending {A : Type} (key : A -> Z) (a b : A) : Z :=
  (key b - key a)%Z.

(** ** [Math.floor] and the tracking number *)

(** The integer [Math.floor x] of a finite [x]. *)
Definition floorZ (x : number) : option Z :=
  match x with
  | S754_zero _ => Some 0%Z
  | S754_finite s m e =>
      let v := if s then Zneg m else Zpos m in
      Some (if (0 <=? e)%Z then v * 2 ^ e else v / 2 ^ (- e))%Z
  | S754_infinity _ | S754_nan => None
  end.

(** [`${Math.floor(x)}`]; the numeral is the one JavaScript prints as long as
    the magnitude is below [10^21]. *)
Definition floor_string (x : number) : string :=
  match x with
  | S754_nan => "NaN"
  | S754_infinity s => if s then "-Infinity" else "Infinity"
  | _ => match floorZ x with Some z => string_of_Z z | None => "" end
  end.

(** [generateTrackingNumber]; [random] is what [Math.random()] returns. *)
Definition generateTrackingNumber (random : number) : string :=
  "ST" ++ floor_string
            (Num.add (Num.of_Z 10000000) (Num.mul random (Num.of_Z 90000000))).

(** ** The admin dashboard and the patient's order list *)

(** [{ ...order, status: s }] and [{ ...order, status: s, trackingNumber: t }] *)
Definition with_status (order : Order.t) (s : string) : Order.t :=
  {| Order.id := Order.id order;
     Order.patientEmail := Order.patientEmail order;
     Order.items := Order.items order;
     Order.subtotal := Order.subtotal order;
     Order.shippingFee := Order.shippingFee order;
     Order.total := Order.total order;
     Order.status := s;
     Order.createdAt := Order.createdAt order;
     Order.paymentMethod := Order.paymentMethod order;
     Order.shippingAddress := Order.shippingAddress order;
     Order.trackingNumber := Order.trackingNumber order |}.

Definition with_status_tracking (order : Order.t) (s t : string) : Order.t :=
  {| Order.id := Order.id order;
     Order.patientEmail := Order.patientEmail order;
     Order.items := Order.items order;
     Order.subtotal := Order.subtotal order;
     Order.shippingFee := Order.shippingFee order;
     Order.total := Order.total order;
     Order.status := s;
     Order.createdAt := Order.createdAt order;
     Order.paymentMethod := Order.paymentMethod order;
     Order.shippingAddress := Order.shippingAddress order;
     Order.trackingNumber := Some t |}.

(** The callbacks the two transitions map over the collection. *)
Definition toProcessing (orderId : string) (order : Order.t) : Order.t :=
  if (Order.id order =? orderId)%string
  then with_status order "processing"
  else order.

Definition toShipped (orderId trackingNumber : string) (order : Order.t) : Order.t :=
  if (Order.id order =? orderId)%string
  then with_status_tracking order "shipped" trackingNumber
  else order.

(** What [getOrderActions] renders in the Actions column. *)
Inductive actions : Type :=
  | ButtonMarkAsProcessing (orderId : string)
  | ButtonMarkAsShipped (orderId : string)
  | TrackingText (text : string)
  | NoActions.

Definition getOrderActions (order : Order.t) : actions :=
  if (Order.status order =? "awaiting_payment")%string
  then ButtonMarkAsProcessing (Order.id order)
  else if (Order.status order =? "processing")%string
  then ButtonMarkAsShipped (Order.id order)
  else if (Order.status order =? "shipped")%string
  then TrackingText
         match Order.trackingNumber order with
         | Some t => if (t =? "")%string then "Shipped" else "Tracking: " ++ t
         | None => "Shipped"
         end
  else NoActions.

(** What a transition leaves behind: the store, the list it hands to
    [setOrders] (if it does), and what it shows. *)
Record transition : Type := mkTransition {
  storage : LocalStorage;
  ordersState : option (list Order.t);
  shown : effect
}.

Section Views.

(** [new Date(s).getTime()]: the time value of the date [s] denotes, in
    milliseconds since the epoch, and [None] where JavaScript gives NaN
    for an invalid date. *)
Variable getTime : string -> option Z.

(** The comparator
    [(a, b) => new Date(b.createdAt).getTime() - new Date(a.createdAt).getTime()]
    as the sort reads it: a NaN counts as 0.  Time values are integers of
    magnitude at most 8.64e15, so the sign of the binary64 difference is
    the sign of the exact one. *)
Definition newestFirst (a b : Order.t) : Z :=
  match getTime (Order.createdAt b), getTime (Order.createdAt a) with
  | Some tb, Some ta => tb - ta
  | _, _ => 0
  end%Z.

(** [loadOrders], as the list it hands to [setOrders]. *)
Definition loadOrders (ls : LocalStorage) : list Order.t :=
  match allOrders ls with
  | Json parsedOrders => Array_sort newestFirst parsedOrders
  | Absent | Malformed => []
  end.

Definition persist (ls : LocalStorage) (updatedOrders : list Order.t) : LocalStorage :=
  mkStorage (userEmail ls) (cartItems ls) (Json updatedOrders) (currentOrder ls).

Definition markAsProcessing (orderId : string) (ls : LocalStorage) : transition :=
  match allOrders ls with
  | Absent => mkTransition ls None Silent
  | Malformed => mkTransition ls None (Alert "Error updating order status")
  | Json orders =>
      let updatedOrders := map (toProcessing orderId) orders in
      mkTransition (persist ls updatedOrders)
        (Some (Array_sort newestFirst updatedOrders))
        (Alert ("Order " ++ orderId ++ " marked as processing"))
  end.

Definition markAsShipped (random : number) (orderId : string) (ls : LocalStorage)
  : transition :=
  match allOrders ls with
  | Absent => mkTransition ls None Silent
  | Malformed => mkTransition ls None (Alert "Error updating order status")
  | Json orders =>
      let trackingNumber := generateTrackingNumber random in
      let updatedOrders := map (toShipped orderId trackingNumber) orders in
      mkTransition (persist ls updatedOrders)
        (Some (Array_sort newestFirst updatedOrders))
        (Alert ("Order " ++ orderId ++ " marked as shipped with tracking number: "
                ++ trackingNumber))
  end.

(** Pressing what the Actions column shows for [order]. *)
Definition press (random : number) (order : Order.t) (ls : LocalStorage) : transition :=
  match getOrderActions order with
  | ButtonMarkAsProcessing orderId => markAsProcessing orderId ls
  | ButtonMarkAsShipped orderId => markAsShipped random orderId ls
  | TrackingText _ | NoActions => mkTransition ls None Silent
  end.

(** [order.patientEmail === userEmail] *)
Definition ownedBy (userEmail : string) (order : Order.t) : bool :=
  match Order.patientEmail order with
  | Some email => (email =? userEmail)%string
  | None => false
  end.

(** [loadPatientOrders], as the list it hands to [setPatientOrders]. *)
Definition loadPatientOrders (userEmail : string) (ls : LocalStorage) : list Order.t :=
  match allOrders ls with
  | Json orders => Array_sort newestFirst (filter (ownedBy userEmail) orders)
  | Absent | Malformed => []
  end.

End Views.

(** ** Reading the dates the portal writes

    [isoTime] reads the one format [toISOString] writes,
    [YYYY-MM-DDTHH:mm:ss.sssZ], and gives the time value in milliseconds.
    It is the instance of [getTime] used in the examples below; every other
    text is an invalid date for it, which is narrower than what a browser
    accepts. *)

Definition digit_value (c : ascii) : option Z :=
  let n := Z.of_nat (nat_of_ascii c) in
  if ((48 <=? n) && (n <=? 57))%Z then Some (n - 48)%Z else None.

Fixpoint read_digits (k : nat) (s : string) (acc : Z) : option (Z * string) :=
  match k, s with
  | O, _ => Some (acc, s)
  | S k', String c s' =>
      match digit_value c with
      | Some d => read_digits k' s' (10 * acc + d)%Z
      | None => None
      end
  | S _, EmptyString => None
  end.

Definition expect (c : ascii) (s : string) : option string :=
  match s with
  | String c' s' => if Ascii.eqb c c' then Some s' else None
  | EmptyString => None
  end.

Definition is_leap (y : Z) : bool :=
  ((y mod 4 =? 0) && (negb (y mod 100 =? 0) || (y mod 400 =? 0)))%Z.

Definition days_in_month (y m : Z) : Z :=
  (if m =? 2 then (if is_leap y then 29 else 28)
   else if (m =? 4) || (m =? 6) || (m =? 9) || (m =? 11) then 30
   else 31)%Z.

(** Days from 1970-01-01 to the given day of the proleptic Gregorian calendar. *)
Definition days_from_civil (y m d : Z) : Z :=
  (let y' := if m <=? 2 then y - 1 else y in
   let era := y' / 400 in
   let yoe := y' - era * 400 in
   let doy := (153 * (if 2 <? m then m - 3 else m + 9) + 2) / 5 + d - 1 in
   let doe := yoe * 365 + yoe / 4 - yoe / 100 + doy in
   era * 146097 + doe - 719468)%Z.

Definition bind_option {A B : Type} (x : option A) (k : A -> option B) : option B :=
  match x with
  | Some a => k a
  | None => None
  end.

Notation "' p <- x ;; k" := (bind_option x (fun p => k))
  (at level 61, p pattern, x at next level, right associativity).

Definition isoTime (s : string) : option Z :=
  ' (year, s) <- read_digits 4 s 0%Z ;;
  ' s <- expect "-" s ;;
  ' (month, s) <- read_digits 2 s 0%Z ;;
  ' s <- expect "-" s ;;
  ' (day, s) <- read_digits 2 s 0%Z ;;
  ' s <- expect "T" s ;;
  ' (hour, s) <- read_digits 2 s 0%Z ;;
  ' s <- expect ":" s ;;
  ' (minute, s) <- read_digits 2 s 0%Z ;;
  ' s <- expect ":" s ;;
  ' (second, s) <- read_digits 2 s 0%Z ;;
  ' s <- expect "." s ;;
  ' (ms, s) <- read_digits 3 s 0%Z ;;
  ' s <- expect "Z" s ;;
  match s with
  | EmptyString =>
      if ((1 <=? month) && (month <=? 12) && (1 <=? day)
          && (day <=? days_in_month year month)
          && (hour <=? 23) && (minute <=? 59) && (second <=? 59))%Z
      then Some ((((days_from_civil year month day * 24 + hour) * 60 + minute) * 60
                  + second) * 1000 + ms)%Z
      else None
  | String _ _ => None
  end.

(** The orders a store holds: none when ["allOrders"] is missing or unreadable. *)
Definition storedOrders (ls : LocalStorage) : list Order.t :=
  match allOrders ls with
  | Json orders => orders
  | Absent | Malformed => []
  end.

(** ** Vocabulary of the properties *)

(** The status progression of the admin dashboard. *)
Definition next_status (s : string) : option string :=
  if (s =? "awaiting_payment")%string then Some "processing"
  else if (s =? "processing")%string then Some "shipped"
  else None.

(** Position in the progression; 3 stands for any other text. *)
Definition status_rank (s : string) : nat :=
  if (s =? "awaiting_payment")%string then 0
  else if (s =? "processing")%string then 1
  else if (s =? "shipped")%string then 2
  else 3.

(** [total] is the very binary64 value [subtotal + shippingFee].  This is
    identity of values, which a NaN satisfies too; the comparison [==] of
    the program is [totalEquation] below. *)
Definition total_consistent (order : Order.t) : Prop :=
  Order.total order = Num.add (Order.subtotal order) (Order.shippingFee order).

(** The comparison [order.total == order.subtotal + order.shippingFee] of
    two numbers: false as soon as one side is NaN. *)
Definition totalEquation (order : Order.t) : bool :=
  Num.eqb (Order.total order)
    (Num.add (Order.subtotal order) (Order.shippingFee order)).

(** The numbers that [JSON.parse (JSON.stringify x)] gives back as they
    were: the finite ones, the negative zero apart.  [JSON.stringify] writes
    a NaN or an infinity as [null] and the negative zero as [0]. *)
Definition jsonExact (x : number) : bool :=
  match x with
  | S754_zero negative => negb negative
  | S754_finite _ _ _ => true
  | S754_infinity _ => false
  | S754_nan => false
  end.

(** [JSON.parse (JSON.stringify x)] for a number [x]; [None] is [null]. *)
Definition jsonNumber (x : number) : option number :=
  match x with
  | S754_zero _ => Some (S754_zero false)
  | S754_finite _ _ _ => Some x
  | S754_infinity _ => None
  | S754_nan => None
  end.

(** Every number of a cart line is one that the store gives back. *)
Definition lineExact (item : CartItem.t) : bool :=
  jsonExact (Prescription.quantity (CartItem.prescription item))
  && jsonExact (Prescription.repeats (CartItem.prescription item))
  && jsonExact (Prescription.price (CartItem.prescription item))
  && jsonExact (CartItem.quantitySelected item).

Definition cartExact (cart : list CartItem.t) : bool := forallb lineExact cart.

(** [JSON.parse (JSON.stringify item)] for a cart line, and for a cart;
    [None] where a number comes back as [null], so that what is read is no
    cart line any more.  Strings come back as they were. *)
Definition jsonLine (item : CartItem.t) : option CartItem.t :=
  let p := CartItem.prescription item in
  match jsonNumber (Prescription.quantity p), jsonNumber (Prescription.repeats p),
        jsonNumber (Prescription.price p), jsonNumber (CartItem.quantitySelected item) with
  | Some quantity, Some repeats, Some price, Some quantitySelected =>
      Some (CartItem.mk
              (Prescription.mk (Prescription.id p) (Prescription.name p)
                 (Prescription.strength p) quantity repeats
                 (Prescription.prescribedDate p) (Prescription.expiryDate p)
                 (Prescription.status p) (Prescription.interval p) price)
              quantitySelected)
  | _, _, _, _ => None
  end.

Fixpoint jsonCart (cart : list CartItem.t) : option (list CartItem.t) :=
  match cart with
  | [] => Some []
  | item :: rest =>
      match jsonLine item, jsonCart rest with
      | Some item', Some rest' => Some (item' :: rest')
      | _, _ => None
      end
  end.



Definition same_money (a b : Order.t) : Prop :=
  Order.subtotal b = Order.subtotal a
  /\ Order.shippingFee b = Order.shippingFee a
  /\ Order.total b = Order.total a.

(** Every field but [status] and [trackingNumber] agrees. *)
Definition same_core (a b : Order.t) : Prop :=
  Order.id b = Order.id a
  /\ Order.patientEmail b = Order.patientEmail a
  /\ Order.items b = Order.items a
  /\ Order.subtotal b = Order.subtotal a
  /\ Order.shippingFee b = Order.shippingFee a
  /\ Order.total b = Order.total a
  /\ Order.createdAt b = Order.createdAt a
  /\ Order.paymentMethod b = Order.paymentMethod a
  /\ Order.shippingAddress b = Order.shippingAddress a.



(** The creation time of an order, 0 standing in for an invalid date. *)
Definition createdTime (getTime : string -> option Z) (order : Order.t) : Z :=
  match getTime (Order.createdAt order) with
  | Some t => t
  | None => 0%Z
  end.

Definition validDate (getTime : string -> option Z) (order : Order.t) : Prop :=
  getTime (Order.createdAt order) <> None.

(** [a] was created no earlier than [b]: [a] may stand before [b] in a list
    that is newest first. *)
Definition notOlder (getTime : string -> option Z) (a b : Order.t) : Prop :=
  (createdTime getTime b <= createdTime getTime a)%Z.

(** [order] was created at [t]. *)
Definition createdAtTime (getTime : string -> option Z) (t : Z) (order : Order.t) : bool :=
  (createdTime getTime order =? t)%Z.

(** What [Math.random()] may return: a binary64 value that is at least 0
    and below 1. *)
Definition isRandom (r : number) : bool :=
  valid_binary 53 1024 r && SFleb Num.zero r && SFltb r (Num.of_Z 1).

(** Reading the rounding of [SpecFloat].  [shifted M j rec] says that [rec]
    is what is left of the integer [M] after [j] shifts to the right: its
    mantissa is [M / 2^j] and its round bit tells whether the part shifted
    out is at least half a unit. *)
Definition shifted (M j : Z) (rec : shr_record) : Prop :=
  (0 <= shr_m rec
   /\ shr_m rec * 2 ^ j <= M < (shr_m rec + 1) * 2 ^ j
   /\ (shr_r rec = true -> (2 * shr_m rec + 1) * 2 ^ j <= 2 * M)
   /\ (shr_r rec = false -> 2 * M < (2 * shr_m rec + 1) * 2 ^ j))%Z.

(** Values are compared as integers after scaling by [2^scale]; no number
    met on the way to a tracking number has an exponent below [-scale]. *)
Definition scale : Z := 1100.

(** [holds F V]: [F] is a zero or a positive finite number, and [V] is its
    value times [2^scale]. *)
Definition holds (F : number) (V : Z) : Prop :=
  match F with
  | S754_zero _ => V = 0%Z
  | S754_finite false m e => (- scale <= e /\ V = Zpos m * 2 ^ (e + scale))%Z
  | _ => False
  end.

(** ** Sample data for the examples *)

Definition sampleCart : list CartItem.t :=
  [CartItem.mk rx002 (Num.of_Z 30); CartItem.mk rx001 (Num.of_Z 20)].

Definition sampleOrder1 : Order.t :=
  newOrder [CartItem.mk rx001 (Num.of_Z 20)] 1705314600000
    "2024-01-15T10:30:00.000Z" (Some "pat@example.com").

Definition sampleOrder2 : Order.t :=
  newOrder [CartItem.mk rx002 (Num.of_Z 30)] 1705314700000
    "2024-01-15T10:31:40.000Z" (Some "sam@example.com").

Definition shippedOrder : Order.t :=
  with_status_tracking sampleOrder1 "shipped" "ST12345678".

Definition sampleStore : LocalStorage :=
  mkStorage (Some "pat@example.com") Absent (Json [sampleOrder1; sampleOrder2]) Absent.

Definition shippedStore : LocalStorage :=
  mkStorage None Absent (Json [shippedOrder]) Absent.




(** Two orders of one patient placed within the same millisecond. *)
Definition tieFirst : Order.t :=
  newOrder [CartItem.mk rx001 (Num.of_Z 20)] 1705314599999
    "2024-01-15T10:30:00.000Z" (Some "pat@example.com").

Definition tieSecond : Order.t :=
  newOrder [CartItem.mk rx002 (Num.of_Z 30)] 1705314600000
    "2024-01-15T10:30:00.000Z" (Some "pat@example.com").

Definition tieStore : LocalStorage :=
  mkStorage (Some "pat@example.com") Absent
    (Json [sampleOrder2; tieFirst; tieSecond]) Absent.

Definition awaitingStore : LocalStorage :=
  mkStorage None Absent (Json [sampleOrder1]) Absent.




(** ** Sign-in, guards and page loads

    The sign-in keys of [localStorage] sit beside the keys of
    [LocalStorage]: a [Browser] is the whole store. *)

Record AuthKeys : Type := mkAuth {
  isAuthenticated : option string;
  isAdminAuthenticated : option string;
  adminEmail : option string
}.

Record Browser : Type := mkBrowser {
  auth : AuthKeys;
  data : LocalStorage
}.

Definition freshBrowser : Browser :=
  mkBrowser (mkAuth None None None) freshStorage.

(** [localStorage.getItem(key) === "true"] *)
Definition isTrue (flag : option string) : bool :=
  match flag with
  | Some text => (text =? "true")%string
  | None => false
  end.

(** The steps of the patient login form. *)
Inductive loginStep : Type := emailStep | otpStep.

(** [handleEmailSubmit], after its simulated delay: the step it sets and
    what it alerts. *)
Definition handleEmailSubmit : loginStep * effect :=
  (otpStep, Alert "OTP sent to your email! Use code: 123456").

(** [handleOtpSubmit], after its simulated delay. *)
Definition handleOtpSubmit (email otp : string) (b : Browser) : Browser * effect :=
  if (otp =? "123456")%string
  then (mkBrowser
          (mkAuth (Some "true") (isAdminAuthenticated (auth b)) (adminEmail (auth b)))
          (mkStorage (Some email) (cartItems (data b)) (allOrders (data b))
             (currentOrder (data b))),
        Navigate "/dashboard")
  else (b, Alert "Invalid OTP").

(** [handleLogin] of the admin login page, after its simulated delay: the
    store, the [error] state it leaves and where it goes. *)
Definition handleLogin (email password : string) (b : Browser)
  : Browser * string * effect :=
  if ((email =? "admin@moca.com") && (password =? "password123"))%string
  then (mkBrowser
          (mkAuth (isAuthenticated (auth b)) (Some "true") (Some email))
          (data b),
        "", Navigate "/admin/dashboard")
  else (b, "Invalid email or password", Silent).

(** The effect of the home page. *)
Definition Home (b : Browser) : effect :=
  if isTrue (isAuthenticated (auth b)) then Navigate "/dashboard" else Navigate "/login".

(** The mount effect of the patient dashboard: the [userEmail] state it
    sets when it lets the patient in, and where it goes otherwise. *)
Definition dashboardMount (b : Browser) : option string * effect :=
  match userEmail (data b) with
  | Some email =>
      if isTrue (isAuthenticated (auth b)) && negb (email =? "")%string
      then (Some email, Silent)
      else (None, Navigate "/login")
  | None => (None, Navigate "/login")
  end.

(** [handleLogout] of the patient dashboard. *)
Definition handleLogout (b : Browser) : Browser * effect :=
  (mkBrowser
     (mkAuth None (isAdminAuthenticated (auth b)) (adminEmail (auth b)))
     (mkStorage None (cartItems (data b)) (allOrders (data b)) (currentOrder (data b))),
   Navigate "/login").

(** [handleLogout] of the admin dashboard. *)
Definition adminHandleLogout (b : Browser) : Browser * effect :=
  (mkBrowser (mkAuth (isAuthenticated (auth b)) None None) (data b),
   Navigate "/admin/login").

(** The mount effect of the checkout page: the [cartItems] state it leaves
    (initially empty) and where it goes.  [Malformed] is here text that
    [JSON.parse] rejects, the only call inside the [try]; text that parses to
    something else than a cart is no value of the slot. *)
Definition checkoutMount (b : Browser) : list CartItem.t * effect :=
  if isTrue (isAuthenticated (auth b))
  then match cartItems (data b) with
       | Json parsedCart => (parsedCart, Silent)
       | Malformed => ([], Navigate "/dashboard")
       | Absent => ([], Navigate "/dashboard")
       end
  else ([], Navigate "/login").

(** The mount effect of the order success page: the [order] state it
    leaves (initially [null]) and where it goes.  [Malformed] is here text
    that [JSON.parse] rejects, the only call inside the [try]; text that
    parses to something else than an order is no value of the slot. *)
Definition orderSuccessMount (b : Browser) : option Order.t * effect :=
  if isTrue (isAuthenticated (auth b))
  then match currentOrder (data b) with
       | Json parsedOrder => (Some parsedOrder, Silent)
       | Malformed => (None, Navigate "/dashboard")
       | Absent => (None, Navigate "/dashboard")
       end
  else (None, Navigate "/login").

(** The mount effect of the admin dashboard: the [orders] state it sets
    when it lets the admin in, and where it goes otherwise. *)
Definition adminDashboardMount (getTime : string -> option Z) (b : Browser)
  : option (list Order.t) * effect :=
  if isTrue (isAdminAuthenticated (auth b))
  then (Some (loadOrders getTime (data b)), Silent)
  else (None, Navigate "/admin/login").

(** The tracking number the patient's order card shows:
    [order.status === "shipped" && order.trackingNumber && ...]. *)
Definition trackingShown (order : Order.t) : option string :=
  if (Order.status order =? "shipped")%string
  then match Order.trackingNumber order with
       | Some t => if (t =? "")%string then None else Some t
       | None => None
       end
  else None.

(** A handler of the patient pages run on the whole store. *)
Definition onData (f : LocalStorage -> LocalStorage) (b : Browser) : Browser :=
  mkBrowser (auth b) (f (data b)).

(** The number a string of decimal digits spells, read after [acc]. *)
Fixpoint numeral_value (s : string) (acc : Z) : Z :=
  match s with
  | EmptyString => acc
  | String c s' => numeral_value s' (10 * acc + (Z.of_nat (nat_of_ascii c) - 48))%Z
  end.

(** The cart holds each prescription once, and eligible ones only. *)
Definition cartWellFormed (cart : list CartItem.t) : Prop :=
  NoDup (map (fun item => Prescription.id (CartItem.prescription item)) cart)
  /\ Forall (fun item =>
               Prescription.status (CartItem.prescription item) = active
               /\ Num.eqb (Prescription.repeats (CartItem.prescription item)) Num.zero
                  = false) cart.

(** A patient signed in, with two orders in the store. *)
Definition signedIn : Browser :=
  mkBrowser (mkAuth (Some "true") None None) sampleStore.

(** A patient signed in, with a cart and a current order stored. *)
Definition midCheckout : Browser :=
  mkBrowser (mkAuth (Some "true") None None)
    (mkStorage (Some "pat@example.com") (Json sampleCart) (Json [sampleOrder1])
       (Json sampleOrder1)).

(** * Properties *)

(** ** Numbers *)

Lemma gtb_zero_not_eqb (x : number) :
  Num.gtb x Num.zero = true -> Num.eqb x Num.zero = false.
Proof.
  unfold Num.gtb, Num.eqb, SFltb, SFeqb, Num.zero.
  destruct x as [s | s | | s m e]; simpl; try discriminate;
    destruct s; simpl; intros H; try discriminate; reflexivity.
Qed.

(** A number that is not NaN is [===] to itself. *)
Lemma eqb_refl_not_nan (x : number) :
  Num.is_nan x = false -> Num.eqb x x = true.
Proof.
  unfold Num.eqb, SFeqb, SFcompare.
  destruct x as [s | s | | s m e]; simpl; intros Hnan; try discriminate.
  - reflexivity.
  - destruct s; reflexivity.
  - rewrite Z.compare_refl.
    change (Pos.compare_cont Eq m m) with (Pos.compare m m).
    rewrite Pos.compare_refl. destruct s; reflexivity.
Qed.

(** ** The cart *)

Lemma find_same_prescription_none (p : Prescription.t) (cart : list CartItem.t) :
  find (same_prescription p) cart = None <->
  (forall item, In item cart ->
     Prescription.id (CartItem.prescription item) <> Prescription.id p).
Proof.
  split.
  - intros Hnone item Hin Heq.
    apply (find_none _ _ Hnone) in Hin.
    unfold same_prescription in Hin. rewrite Heq, String.eqb_refl in Hin.
    discriminate.
  - intros Hall. induction cart as [| item cart IH]; simpl; [reflexivity |].
    unfold same_prescription at 1.
    destruct (String.eqb_spec (Prescription.id (CartItem.prescription item))
                (Prescription.id p)) as [Heq | Hne].
    + exfalso. apply (Hall item); [left; reflexivity | exact Heq].
    + apply IH. intros item' Hin. apply Hall. right. exact Hin.
Qed.

Lemma find_same_prescription_some (p : Prescription.t) (cart : list CartItem.t) :
  (exists item, In item cart /\
     Prescription.id (CartItem.prescription item) = Prescription.id p) ->
  exists found, find (same_prescription p) cart = Some found.
Proof.
  intros [item [Hin Heq]].
  destruct (find (same_prescription p) cart) as [found |] eqn:Hfind.
  - exists found. reflexivity.
  - exfalso.
    exact (proj1 (find_same_prescription_none p cart) Hfind item Hin Heq).
Qed.

(** C5. A prescription with [repeats === 0] or a status other than
    ['active'] is refused: [addToCart] sets no new cart, so the cart keeps
    its lines and their quantities, and the user is told with an alert; the
    handler returns normally. *)
Theorem addToCart_rejects_ineligible (cart : list CartItem.t) (p : Prescription.t) :
  Num.eqb (Prescription.repeats p) Num.zero = true \/ Prescription.status p <> active ->
  addToCart cart p = (cart, Alert "This prescription cannot be ordered").
Proof.
  intros H. unfold addToCart.
  destruct (Prescription.status p) eqn:Hstatus; simpl; try reflexivity.
  destruct H as [Hzero | Hne].
  - rewrite Hzero. reflexivity.
  - exfalso. apply Hne. reflexivity.
Qed.

Lemma addToCart_rejects_ineligible_witness :
  addToCart sampleCart rx003
  = (sampleCart, Alert "This prescription cannot be ordered").
Proof.
  apply (addToCart_rejects_ineligible sampleCart rx003).
  left. reflexivity.
Defined.

(** C6. For an active prescription with repeats left: when a line of the
    cart already carries its id, the new cart has the same length, each line
    with that id keeps its prescription and has the prescription's full
    quantity added to its selected quantity, and each other line is
    unchanged; when no line carries its id, the new cart is the old one
    followed by one line for the prescription at its full quantity. *)
Theorem addToCart_merges_or_appends (cart : list CartItem.t) (p : Prescription.t) :
  Prescription.status p = active ->
  Num.gtb (Prescription.repeats p) Num.zero = true ->
  let cart' := fst (addToCart cart p) in
  ((exists item, In item cart /\
      Prescription.id (CartItem.prescription item) = Prescription.id p) ->
   List.length cart' = List.length cart /\
   forall i item, nth_error cart i = Some item ->
     (Prescription.id (CartItem.prescription item) = Prescription.id p ->
      nth_error cart' i =
        Some (CartItem.mk (CartItem.prescription item)
                (Num.add (CartItem.quantitySelected item) (Prescription.quantity p)))) /\
     (Prescription.id (CartItem.prescription item) <> Prescription.id p ->
      nth_error cart' i = Some item))
  /\
  ((forall item, In item cart ->
      Prescription.id (CartItem.prescription item) <> Prescription.id p) ->
   cart' = cart ++ [CartItem.mk p (Prescription.quantity p)]).
Proof.
  intros Hactive Hrepeats cart'. subst cart'. unfold addToCart.
  rewrite Hactive, (gtb_zero_not_eqb _ Hrepeats). simpl.
  split.
  - intros Hsome. destruct (find_same_prescription_some p cart Hsome) as [found Hfound].
    rewrite Hfound. simpl. split.
    + apply List.length_map.
    + intros i item Hi. rewrite nth_error_map, Hi. simpl.
      unfold same_prescription.
      destruct (String.eqb_spec (Prescription.id (CartItem.prescription item))
                  (Prescription.id p)) as [Heq | Hne].
      * split; [intros _; reflexivity | intros Hne; contradiction].
      * split; [intros Heq; contradiction | intros _; reflexivity].
  - intros Hnone.
    rewrite (proj2 (find_same_prescription_none p cart) Hnone). reflexivity.
Qed.

Lemma addToCart_merges_or_appends_witness :
  let cart' := fst (addToCart sampleCart rx001) in
  ((exists item, In item sampleCart /\
      Prescription.id (CartItem.prescription item) = Prescription.id rx001) ->
   List.length cart' = List.length sampleCart /\
   forall i item, nth_error sampleCart i = Some item ->
     (Prescription.id (CartItem.prescription item) = Prescription.id rx001 ->
      nth_error cart' i =
        Some (CartItem.mk (CartItem.prescription item)
                (Num.add (CartItem.quantitySelected item) (Prescription.quantity rx001)))) /\
     (Prescription.id (CartItem.prescription item) <> Prescription.id rx001 ->
      nth_error cart' i = Some item))
  /\
  ((forall item, In item sampleCart ->
      Prescription.id (CartItem.prescription item) <> Prescription.id rx001) ->
   cart' = sampleCart ++ [CartItem.mk rx001 (Prescription.quantity rx001)]).
Proof.
  exact (addToCart_merges_or_appends sampleCart rx001 eq_refl eq_refl).
Defined.

Example addToCart_merge_example :
  fst (addToCart sampleCart rx001)
  = [CartItem.mk rx002 (Num.of_Z 30); CartItem.mk rx001 (Num.of_Z 40)].
Proof. vm_compute. reflexivity. Qed.

Example addToCart_append_example :
  fst (addToCart [CartItem.mk rx002 (Num.of_Z 30)] rx001) = sampleCart.
Proof. vm_compute. reflexivity. Qed.

(** ** Checkout *)

Lemma handlePayment_places (cartItems : list CartItem.t) (now : Z) (nowISO : string)
    (ls : LocalStorage) :
  allOrders ls <> Malformed ->
  handlePayment cartItems now nowISO ls
  = (mkStorage (userEmail ls) Absent
       (Json (storedOrders ls ++ [newOrder cartItems now nowISO (userEmail ls)]))
       (Json (newOrder cartItems now nowISO (userEmail ls))),
     Navigate "/order-success").
Proof.
  intros Hreadable. unfold handlePayment, storedOrders.
  destruct (allOrders ls); [reflexivity | contradiction | reflexivity].
Qed.

(** C8. Adding [rx-001] (price 12.50, quantity 20) to an empty cart gives a
    cart whose total is exactly 250.00; going to checkout with that cart and
    paying, on a store whose order collection is readable, appends an order
    whose total is exactly 283.00 (shipping fee 33.00), whose status is
    ['awaiting_payment'] and whose tracking number is [null]. *)
Theorem checkout_scenario (now : Z) (nowISO : string) (ls : LocalStorage) :
  allOrders ls <> Malformed ->
  let cart := fst (addToCart [] rx001) in
  let ls1 := fst (proceedToCheckout cart ls) in
  let ls2 := fst (handlePayment (checkoutCart ls1) now nowISO ls1) in
  Prescription.id rx001 = "rx-001"
  /\ Prescription.price rx001 = Num.decimal 1250 2
  /\ Prescription.quantity rx001 = Num.of_Z 20
  /\ cartTotal cart = Num.decimal 25000 2
  /\ shippingFee = Num.decimal 3300 2
  /\ exists order,
       allOrders ls2 = Json (storedOrders ls ++ [order])
       /\ Order.total order = Num.decimal 28300 2
       /\ Order.status order = "awaiting_payment"
       /\ Order.trackingNumber order = None.
Proof.
  intros Hreadable cart ls1 ls2.
  repeat apply conj; try (vm_compute; reflexivity).
  exists (newOrder (checkoutCart ls1) now nowISO (userEmail ls1)).
  subst ls2. rewrite handlePayment_places by exact Hreadable.
  repeat apply conj; vm_compute; reflexivity.
Qed.

Lemma checkout_scenario_witness :
  let cart := fst (addToCart [] rx001) in
  let ls1 := fst (proceedToCheckout cart freshStorage) in
  let ls2 := fst (handlePayment (checkoutCart ls1) 1705314600000
                    "2024-01-15T10:30:00.000Z" ls1) in
  Prescription.id rx001 = "rx-001"
  /\ Prescription.price rx001 = Num.decimal 1250 2
  /\ Prescription.quantity rx001 = Num.of_Z 20
  /\ cartTotal cart = Num.decimal 25000 2
  /\ shippingFee = Num.decimal 3300 2
  /\ exists order,
       allOrders ls2 = Json (storedOrders freshStorage ++ [order])
       /\ Order.total order = Num.decimal 28300 2
       /\ Order.status order = "awaiting_payment"
       /\ Order.trackingNumber order = None.
Proof.
  apply (checkout_scenario 1705314600000 "2024-01-15T10:30:00.000Z" freshStorage).
  discriminate.
Defined.

(** C10. [handlePayment] does not look at whether the cart is empty: run
    with an empty item list on a store whose order collection is readable,
    it appends an order with no items, subtotal 0, total 33.00, status
    ['awaiting_payment'] and no tracking number, removes the stored cart and
    goes on to the success page. *)
Theorem handlePayment_empty_cart (now : Z) (nowISO : string) (ls : LocalStorage) :
  allOrders ls <> Malformed ->
  exists order,
    handlePayment [] now nowISO ls
    = (mkStorage (userEmail ls) Absent (Json (storedOrders ls ++ [order])) (Json order),
       Navigate "/order-success")
    /\ Order.items order = []
    /\ Order.subtotal order = Num.zero
    /\ Order.total order = Num.decimal 3300 2
    /\ Order.status order = "awaiting_payment"
    /\ Order.trackingNumber order = None.
Proof.
  intros Hreadable. exists (newOrder [] now nowISO (userEmail ls)).
  split; [apply handlePayment_places; exact Hreadable |].
  repeat apply conj; vm_compute; reflexivity.
Qed.

Lemma handlePayment_empty_cart_witness :
  exists order,
    handlePayment [] 1705314600000 "2024-01-15T10:30:00.000Z" freshStorage
    = (mkStorage None Absent (Json ([] ++ [order])) (Json order),
       Navigate "/order-success")
    /\ Order.items order = []
    /\ Order.subtotal order = Num.zero
    /\ Order.total order = Num.decimal 3300 2
    /\ Order.status order = "awaiting_payment"
    /\ Order.trackingNumber order = None.
Proof.
  apply (handlePayment_empty_cart 1705314600000 "2024-01-15T10:30:00.000Z" freshStorage).
  discriminate.
Defined.

(** ** Status transitions *)

Lemma toProcessing_other (orderId : string) (order : Order.t) :
  Order.id order <> orderId -> toProcessing orderId order = order.
Proof.
  intros Hne. unfold toProcessing.
  destruct (String.eqb_spec (Order.id order) orderId); [contradiction | reflexivity].
Qed.

Lemma toProcessing_match (orderId : string) (order : Order.t) :
  Order.id order = orderId ->
  toProcessing orderId order = with_status order "processing".
Proof.
  intros Heq. unfold toProcessing. rewrite Heq, String.eqb_refl. reflexivity.
Qed.

Lemma toShipped_other (orderId t : string) (order : Order.t) :
  Order.id order <> orderId -> toShipped orderId t order = order.
Proof.
  intros Hne. unfold toShipped.
  destruct (String.eqb_spec (Order.id order) orderId); [contradiction | reflexivity].
Qed.

Lemma toShipped_match (orderId t : string) (order : Order.t) :
  Order.id order = orderId ->
  toShipped orderId t order = with_status_tracking order "shipped" t.
Proof.
  intros Heq. unfold toShipped. rewrite Heq, String.eqb_refl. reflexivity.
Qed.


Lemma Forall2_map_self {A : Type} (R : A -> A -> Prop) (f : A -> A) (l : list A) :
  (forall x, R x (f x)) -> Forall2 R l (map f l).
Proof.
  intros HR. induction l; simpl; constructor; auto.
Qed.


Section Transitions.

Variable getTime : string -> option Z.



(** Money under the transitions. *)



Lemma same_money_refl (order : Order.t) : same_money order order.
Proof. unfold same_money. repeat apply conj; reflexivity. Qed.



(** Where the equation holds and the total is a number, the comparison
    [total === subtotal + shippingFee] is true. *)
Lemma total_consistent_eqb (order : Order.t) :
  total_consistent order ->
  Num.is_nan (Order.total order) = false ->
  Num.eqb (Order.total order)
    (Num.add (Order.subtotal order) (Order.shippingFee order)) = true.
Proof.
  unfold total_consistent. intros Hcons Hnan. rewrite <- Hcons.
  apply eqb_refl_not_nan. exact Hnan.
Qed.


Lemma jsonExact_not_nan (x : number) : jsonExact x = true -> Num.is_nan x = false.
Proof. destruct x; simpl; intros H; [reflexivity | discriminate | discriminate | reflexivity]. Qed.








(** The gate of the Actions column, and what pressing does. *)

Lemma Forall2_map_In {A : Type} (R : A -> A -> Prop) (f : A -> A) (l : list A) :
  (forall x, In x l -> R x (f x)) -> Forall2 R l (map f l).
Proof.
  intros HR. induction l as [| x l IH]; simpl; constructor.
  - apply HR. left. reflexivity.
  - apply IH. intros y Hy. apply HR. right. exact Hy.
Qed.

Lemma same_id_same_order (orders : list Order.t) (a b : Order.t) :
  NoDup (map Order.id orders) ->
  In a orders -> In b orders -> Order.id a = Order.id b -> a = b.
Proof.
  induction orders as [| o orders IH]; simpl; intros Hnodup Ha Hb Hid.
  - contradiction.
  - inversion Hnodup as [| x xs Hfresh Hrest]; subst.
    destruct Ha as [Ha | Ha], Hb as [Hb | Hb].
    + congruence.
    + subst a. exfalso. apply Hfresh. rewrite Hid. apply in_map. exact Hb.
    + subst b. exfalso. apply Hfresh. rewrite <- Hid. apply in_map. exact Ha.
    + apply IH; assumption.
Qed.

Lemma same_core_refl (order : Order.t) : same_core order order.
Proof. unfold same_core. repeat apply conj; reflexivity. Qed.

Lemma getOrderActions_gate (order : Order.t) :
  (forall orderId, getOrderActions order = ButtonMarkAsProcessing orderId ->
                   Order.status order = "awaiting_payment" /\ orderId = Order.id order)
  /\ (forall orderId, getOrderActions order = ButtonMarkAsShipped orderId ->
                      Order.status order = "processing" /\ orderId = Order.id order)
  /\ (Order.status order = "shipped" ->
      exists text, getOrderActions order = TrackingText text).
Proof.
  unfold getOrderActions.
  destruct (String.eqb_spec (Order.status order) "awaiting_payment") as [Ha | Ha];
    [| destruct (String.eqb_spec (Order.status order) "processing") as [Hp | Hp];
       [| destruct (String.eqb_spec (Order.status order) "shipped") as [Hs | Hs]]].
  - repeat apply conj.
    + intros orderId Heq. inversion Heq. split; [exact Ha | reflexivity].
    + intros orderId Heq. discriminate.
    + intros Hshipped. rewrite Hshipped in Ha. discriminate.
  - repeat apply conj.
    + intros orderId Heq. discriminate.
    + intros orderId Heq. inversion Heq. split; [exact Hp | reflexivity].
    + intros Hshipped. rewrite Hshipped in Hp. discriminate.
  - repeat apply conj.
    + intros orderId Heq. discriminate.
    + intros orderId Heq. discriminate.
    + intros _. eexists. reflexivity.
  - repeat apply conj.
    + intros orderId Heq. discriminate.
    + intros orderId Heq. discriminate.
    + intros Hshipped. contradiction.
Qed.

(** C1, as the code has it.  The Actions column offers [markAsProcessing]
    only for an order whose status is ['awaiting_payment'],
    [markAsShipped] only for one whose status is ['processing'], and for a
    ['shipped'] order a text and no button.  Pressing what the column
    offers for an order of a stored collection with distinct ids moves
    that order to the next status of
    [awaiting_payment -> processing -> shipped] when it has one and leaves
    its status alone otherwise; its other fields apart from the tracking
    number, and every other order, stay as they were. *)
Theorem press_moves_one_step_forward (random : number) (order : Order.t)
    (ls : LocalStorage) (orders : list Order.t) :
  allOrders ls = Json orders ->
  In order orders ->
  NoDup (map Order.id orders) ->
  ((forall orderId, getOrderActions order = ButtonMarkAsProcessing orderId ->
                    Order.status order = "awaiting_payment" /\ orderId = Order.id order)
   /\ (forall orderId, getOrderActions order = ButtonMarkAsShipped orderId ->
                       Order.status order = "processing" /\ orderId = Order.id order)
   /\ (Order.status order = "shipped" ->
       exists text, getOrderActions order = TrackingText text))
  /\ exists updated,
       allOrders (storage (press getTime random order ls)) = Json updated
       /\ Forall2 (fun o o' =>
                     (o = order ->
                      same_core o o'
                      /\ Order.status o' =
                         match next_status (Order.status o) with
                         | Some s => s
                         | None => Order.status o
                         end)
                     /\ (o <> order -> o' = o))
            orders updated.
Proof.
  intros Hstored Hin Hnodup. split; [apply getOrderActions_gate |].
  assert (Hother : forall o, In o orders -> o <> order -> Order.id o <> Order.id order).
  { intros o Ho Hne Hid. apply Hne.
    apply (same_id_same_order orders); assumption. }
  unfold press, getOrderActions, next_status.
  destruct (String.eqb_spec (Order.status order) "awaiting_payment") as [Ha | Ha];
    [| destruct (String.eqb_spec (Order.status order) "processing") as [Hp | Hp]].
  - exists (map (toProcessing (Order.id order)) orders).
    unfold markAsProcessing. rewrite Hstored. simpl. split; [reflexivity |].
    apply Forall2_map_In. intros o Ho. split.
    + intros Heq. subst o. rewrite toProcessing_match by reflexivity.
      rewrite Ha. simpl. split; [| reflexivity].
      unfold same_core. simpl. repeat apply conj; reflexivity.
    + intros Hne. apply toProcessing_other. apply Hother; assumption.
  - exists (map (toShipped (Order.id order) (generateTrackingNumber random)) orders).
    unfold markAsShipped. rewrite Hstored. simpl. split; [reflexivity |].
    apply Forall2_map_In. intros o Ho. split.
    + intros Heq. subst o. rewrite toShipped_match by reflexivity.
      rewrite Hp. simpl. split; [| reflexivity].
      unfold same_core. simpl. repeat apply conj; reflexivity.
    + intros Hne. apply toShipped_other. apply Hother; assumption.
  - exists orders. split.
    + destruct (Order.status order =? "shipped")%string; exact Hstored.
    + rewrite <- (map_id orders) at 2.
      apply Forall2_map_In. intros o Ho. split; [| intros _; reflexivity].
      intros Heq. subst o. split; [apply same_core_refl |].
      rewrite (proj2 (String.eqb_neq _ _) Ha), (proj2 (String.eqb_neq _ _) Hp).
      reflexivity.
Qed.

End Transitions.






Lemma sampleStore_distinct_ids : NoDup (map Order.id [sampleOrder1; sampleOrder2]).
Proof.
  repeat constructor; simpl.
  - intros [Heq | []]. vm_compute in Heq. discriminate.
  - intros [].
Qed.

Lemma press_moves_one_step_forward_witness :
  exists updated,
    allOrders (storage (press isoTime Num.zero sampleOrder1 sampleStore)) = Json updated
    /\ Forall2 (fun o o' =>
                  (o = sampleOrder1 ->
                   same_core o o'
                   /\ Order.status o' =
                      match next_status (Order.status o) with
                      | Some s => s
                      | None => Order.status o
                      end)
                  /\ (o <> sampleOrder1 -> o' = o))
         [sampleOrder1; sampleOrder2] updated.
Proof.
  apply (press_moves_one_step_forward isoTime Num.zero sampleOrder1 sampleStore
           [sampleOrder1; sampleOrder2] eq_refl).
  - left. reflexivity.
  - exact sampleStore_distinct_ids.
Defined.

(** The transitions look at no status: [markAsProcessing] takes a shipped
    order back to ['processing'], [markAsShipped] takes an order straight
    from ['awaiting_payment'] to ['shipped'], and [markAsShipped] on a
    shipped order is carried out and reported as done, with a new tracking
    number in place of the old one. *)
Lemma transitions_check_no_status :
  Order.status shippedOrder = "shipped"
  /\ storedOrders (storage (markAsProcessing isoTime "MOCA-1705314600000" shippedStore))
     = [with_status shippedOrder "processing"]
  /\ status_rank "processing" < status_rank "shipped"
  /\ Order.status sampleOrder1 = "awaiting_payment"
  /\ storedOrders (storage (markAsShipped isoTime Num.zero "MOCA-1705314600000" awaitingStore))
     = [with_status_tracking sampleOrder1 "shipped" "ST10000000"]
  /\ storedOrders (storage (markAsShipped isoTime Num.zero "MOCA-1705314600000" shippedStore))
     = [with_status_tracking shippedOrder "shipped" "ST10000000"]
  /\ shown (markAsShipped isoTime Num.zero "MOCA-1705314600000" shippedStore)
     = Alert "Order MOCA-1705314600000 marked as shipped with tracking number: ST10000000".
Proof.
  repeat apply conj; vm_compute; reflexivity.
Qed.

(** ** The sort *)

Section SortFacts.

Variable A : Type.

Lemma insert_before_Permutation (cmp : A -> A -> Z) (x : A) (l : list A) :
  Permutation (insert_before cmp x l) (x :: l).
Proof.
  induction l as [| y l IH]; simpl.
  - apply Permutation_refl.
  - destruct (0 <? cmp x y)%Z.
    + apply Permutation_trans with (y :: x :: l).
      * apply perm_skip. exact IH.
      * apply perm_swap.
    + apply Permutation_refl.
Qed.

Lemma Array_sort_Permutation (cmp : A -> A -> Z) (l : list A) :
  Permutation (Array_sort cmp l) l.
Proof.
  induction l as [| x l IH]; simpl.
  - apply perm_nil.
  - apply Permutation_trans with (x :: Array_sort cmp l).
    + apply insert_before_Permutation.
    + apply perm_skip. exact IH.
Qed.

Lemma insert_before_ext (cmp cmp' : A -> A -> Z) (x : A) (l : list A) :
  (forall y, In y l -> cmp x y = cmp' x y) ->
  insert_before cmp x l = insert_before cmp' x l.
Proof.
  induction l as [| y l IH]; simpl; intros Hagree; [reflexivity |].
  rewrite (Hagree y (or_introl eq_refl)).
  destruct (0 <? cmp' x y)%Z; [| reflexivity].
  f_equal. apply IH. intros z Hz. apply Hagree. right. exact Hz.
Qed.

Lemma Array_sort_ext (cmp cmp' : A -> A -> Z) (l : list A) :
  (forall x y, In x l -> In y l -> cmp x y = cmp' x y) ->
  Array_sort cmp l = Array_sort cmp' l.
Proof.
  induction l as [| x l IH]; simpl; intros Hagree; [reflexivity |].
  rewrite IH by (intros a b Ha Hb; apply Hagree; right; assumption).
  apply insert_before_ext. intros y Hy. apply Hagree.
  - left. reflexivity.
  - right. apply (Permutation_in _ (Array_sort_Permutation cmp' l)). exact Hy.
Qed.

Variable key : A -> Z.

Lemma insert_before_sorted (x : A) (l : list A) :
  StronglySorted (fun a b => key b <= key a)%Z l ->
  StronglySorted (fun a b => key b <= key a)%Z (insert_before (byKeyDescending key) x l).
Proof.
  induction l as [| y l IH]; simpl; intros Hsorted.
  - constructor; constructor.
  - inversion Hsorted as [| y' l' Hrest Hhead]; subst.
    unfold byKeyDescending at 1.
    destruct (Z.ltb_spec 0 (key y - key x)) as [Hnewer | Hnot].
    + constructor; [apply IH; exact Hrest |].
      apply (Permutation_Forall (Permutation_sym (insert_before_Permutation _ x l))).
      constructor; [lia | exact Hhead].
    + constructor; [exact Hsorted |].
      constructor; [lia |].
      apply (Forall_impl _ (P := fun b => (key b <= key y)%Z)); [| exact Hhead].
      intros b Hb. lia.
Qed.

Lemma Array_sort_sorted (l : list A) :
  StronglySorted (fun a b => key b <= key a)%Z (Array_sort (byKeyDescending key) l).
Proof.
  induction l as [| x l IH]; simpl.
  - constructor.
  - apply insert_before_sorted. exact IH.
Qed.

Lemma insert_before_stable (t : Z) (x : A) (l : list A) :
  filter (fun a => key a =? t)%Z (insert_before (byKeyDescending key) x l)
  = filter (fun a => key a =? t)%Z (x :: l).
Proof.
  induction l as [| y l IH]; [reflexivity |].
  simpl insert_before. unfold byKeyDescending at 1.
  destruct (Z.ltb_spec 0 (key y - key x)) as [Hnewer | Hnot]; [| reflexivity].
  simpl. rewrite IH. simpl.
  destruct (Z.eqb_spec (key x) t) as [Hx | Hx];
    destruct (Z.eqb_spec (key y) t) as [Hy | Hy]; try reflexivity.
  exfalso. lia.
Qed.

Lemma Array_sort_stable (t : Z) (l : list A) :
  filter (fun a => key a =? t)%Z (Array_sort (byKeyDescending key) l)
  = filter (fun a => key a =? t)%Z l.
Proof.
  induction l as [| x l IH]; [reflexivity |].
  simpl Array_sort. rewrite insert_before_stable. simpl. rewrite IH. reflexivity.
Qed.

Lemma filter_key_nil (l : list A) :
  (forall t, filter (fun a => key a =? t)%Z l = []) -> l = [].
Proof.
  destruct l as [| x l]; [reflexivity |]. intros Hnone.
  specialize (Hnone (key x)). simpl in Hnone. rewrite Z.eqb_refl in Hnone.
  discriminate.
Qed.

Lemma sorted_head_largest (x : A) (l : list A) (z : A) :
  StronglySorted (fun a b => key b <= key a)%Z (x :: l) ->
  In z (x :: l) -> (key z <= key x)%Z.
Proof.
  intros Hsorted Hin. inversion Hsorted as [| x' l' _ Hhead]; subst.
  destruct Hin as [Hz | Hz].
  - subst z. lia.
  - rewrite Forall_forall in Hhead. apply Hhead. exact Hz.
Qed.

Lemma head_key_in (x : A) (l l' : list A) :
  filter (fun a => key a =? key x)%Z l' = filter (fun a => key a =? key x)%Z (x :: l) ->
  exists z, In z l' /\ key z = key x.
Proof.
  simpl. rewrite Z.eqb_refl. intros Hfilter.
  assert (Hin : In x (filter (fun a => key a =? key x)%Z l'))
    by (rewrite Hfilter; left; reflexivity).
  apply filter_In in Hin. destruct Hin as [Hin _].
  exists x. split; [exact Hin | reflexivity].
Qed.

Lemma sorted_stable_unique (l1 : list A) :
  forall l2,
    StronglySorted (fun a b => key b <= key a)%Z l1 ->
    StronglySorted (fun a b => key b <= key a)%Z l2 ->
    (forall t, filter (fun a => key a =? t)%Z l1 = filter (fun a => key a =? t)%Z l2) ->
    l1 = l2.
Proof.
  induction l1 as [| x l1 IH]; intros l2 Hs1 Hs2 Hsame.
  - symmetry. apply filter_key_nil. intros t. rewrite <- Hsame. reflexivity.
  - destruct l2 as [| y l2].
    + apply filter_key_nil. intros t. rewrite Hsame. reflexivity.
    + assert (Hkey : key x = key y).
      { destruct (head_key_in y l2 (x :: l1) (Hsame (key y))) as [z [Hz Hzy]].
        destruct (head_key_in x l1 (y :: l2) (eq_sym (Hsame (key x)))) as [w [Hw Hwx]].
        pose proof (sorted_head_largest x l1 z Hs1 Hz).
        pose proof (sorted_head_largest y l2 w Hs2 Hw).
        lia. }
      pose proof (Hsame (key x)) as Hhead. simpl in Hhead.
      rewrite Z.eqb_refl, <- Hkey, Z.eqb_refl in Hhead.
      injection Hhead as Hxy Htail. subst y.
      f_equal. apply IH.
      * inversion Hs1; assumption.
      * inversion Hs2; assumption.
      * intros t. specialize (Hsame t). simpl in Hsame.
        destruct (key x =? t)%Z; [injection Hsame as Hsame |]; exact Hsame.
Qed.

(** A list that is sorted by the key and keeps, for every key, the elements
    of [l] with that key in their order is the one [Array_sort] gives: the
    result of a stable sort does not depend on how it sorts. *)
Lemma Array_sort_unique (l l' : list A) :
  StronglySorted (fun a b => key b <= key a)%Z l' ->
  (forall t, filter (fun a => key a =? t)%Z l' = filter (fun a => key a =? t)%Z l) ->
  l' = Array_sort (byKeyDescending key) l.
Proof.
  intros Hsorted Hstable. apply sorted_stable_unique.
  - exact Hsorted.
  - apply Array_sort_sorted.
  - intros t. rewrite Array_sort_stable. apply Hstable.
Qed.

End SortFacts.

(** ** The patient's order list *)

Section PatientView.

Variable getTime : string -> option Z.

Lemma newestFirst_byKey (a b : Order.t) :
  validDate getTime a -> validDate getTime b ->
  newestFirst getTime a b = byKeyDescending (createdTime getTime) a b.
Proof.
  unfold validDate, newestFirst, byKeyDescending, createdTime.
  intros Ha Hb.
  destruct (getTime (Order.createdAt a)); [| contradiction].
  destruct (getTime (Order.createdAt b)); [| contradiction].
  reflexivity.
Qed.

Lemma ownedBy_spec (userEmail : string) (order : Order.t) :
  ownedBy userEmail order = true <-> Order.patientEmail order = Some userEmail.
Proof.
  unfold ownedBy. destruct (Order.patientEmail order) as [email |].
  - rewrite String.eqb_eq. split; congruence.
  - split; discriminate.
Qed.

Lemma sorted_valid_orders (orders : list Order.t) :
  Forall (validDate getTime) orders ->
  Array_sort (newestFirst getTime) orders
  = Array_sort (byKeyDescending (createdTime getTime)) orders.
Proof.
  intros Hvalid. apply Array_sort_ext. intros a b Ha Hb.
  rewrite Forall_forall in Hvalid.
  apply newestFirst_byKey; apply Hvalid; assumption.
Qed.

(** C4, as the code has it.  For a readable collection whose creation
    dates are valid, the patient's list holds exactly the stored orders
    whose [patientEmail] is the given email (each as often as it is
    stored), newest first; orders created at the same time stand in the
    list in the order they have in the collection, so the one appended
    earlier comes first. *)
Theorem loadPatientOrders_view (userEmail : string) (ls : LocalStorage)
    (orders : list Order.t) :
  allOrders ls = Json orders ->
  Forall (validDate getTime) orders ->
  let view := loadPatientOrders getTime userEmail ls in
  (forall order,
      In order view <-> In order orders /\ Order.patientEmail order = Some userEmail)
  /\ Permutation view (filter (ownedBy userEmail) orders)
  /\ StronglySorted (notOlder getTime) view
  /\ (forall t,
        filter (createdAtTime getTime t) view
        = filter (createdAtTime getTime t) (filter (ownedBy userEmail) orders)).
Proof.
  intros Hstored Hvalid view.
  assert (Hview : view = Array_sort (byKeyDescending (createdTime getTime))
                           (filter (ownedBy userEmail) orders)).
  { subst view. unfold loadPatientOrders. rewrite Hstored.
    apply sorted_valid_orders.
    rewrite Forall_forall in *. intros order Hin.
    apply Hvalid. apply filter_In in Hin. apply Hin. }
  rewrite Hview. repeat apply conj.
  - intros order. rewrite <- ownedBy_spec, <- filter_In. split.
    + apply Permutation_in. apply Array_sort_Permutation.
    + apply Permutation_in. apply Permutation_sym. apply Array_sort_Permutation.
  - apply Array_sort_Permutation.
  - apply (Array_sort_sorted _ (createdTime getTime)).
  - intros t. apply (Array_sort_stable _ (createdTime getTime)).
Qed.

End PatientView.

Lemma tieStore_valid :
  Forall (validDate isoTime) [sampleOrder2; tieFirst; tieSecond].
Proof. repeat constructor; vm_compute; discriminate. Qed.

Lemma loadPatientOrders_view_witness :
  let view := loadPatientOrders isoTime "pat@example.com" tieStore in
  (forall order,
      In order view <->
      In order [sampleOrder2; tieFirst; tieSecond]
      /\ Order.patientEmail order = Some "pat@example.com")
  /\ Permutation view
       (filter (ownedBy "pat@example.com") [sampleOrder2; tieFirst; tieSecond])
  /\ StronglySorted (notOlder isoTime) view
  /\ (forall t,
        filter (createdAtTime isoTime t) view
        = filter (createdAtTime isoTime t)
            (filter (ownedBy "pat@example.com") [sampleOrder2; tieFirst; tieSecond])).
Proof.
  exact (loadPatientOrders_view isoTime "pat@example.com" tieStore
           [sampleOrder2; tieFirst; tieSecond] eq_refl tieStore_valid).
Defined.

(** Two orders of one patient with the same creation time: the list shows
    them as the collection holds them, the one appended earlier first, not
    the one appended later. *)
Lemma later_order_does_not_win_ties :
  allOrders tieStore = Json [sampleOrder2; tieFirst; tieSecond]
  /\ isoTime (Order.createdAt tieFirst) = isoTime (Order.createdAt tieSecond)
  /\ loadPatientOrders isoTime "pat@example.com" tieStore = [tieFirst; tieSecond]
  /\ loadPatientOrders isoTime "pat@example.com" tieStore <> [tieSecond; tieFirst].
Proof.
  repeat apply conj; try (vm_compute; reflexivity).
  vm_compute. discriminate.
Qed.

(** ** Tracking numbers

    The bounds on [Math.floor(10000000 + Math.random() * 90000000)] are
    bounds on binary64 arithmetic: the product and the sum are each rounded
    to nearest. *)

Section TrackingNumbers.

Local Open Scope Z_scope.

Lemma digits2_pos_spec (p : positive) :
2 ^ (Zpos (digits2_pos p) - 1) <= Zpos p < 2 ^ Zpos (digits2_pos p).
Proof.
induction p as [p IH | p IH |]; simpl digits2_pos.
- rewrite Pos2Z.inj_succ, (Pos2Z.inj_xI p).
  replace (Z.succ (Zpos (digits2_pos p)) - 1) with (Z.succ (Zpos (digits2_pos p) - 1)) by lia.
  rewrite !Z.pow_succ_r by lia.
  generalize dependent (2 ^ (Z.pos (digits2_pos p) - 1)).
  generalize dependent (2 ^ Z.pos (digits2_pos p)). intros; lia.
- rewrite Pos2Z.inj_succ, (Pos2Z.inj_xO p).
  replace (Z.succ (Zpos (digits2_pos p)) - 1) with (Z.succ (Zpos (digits2_pos p) - 1)) by lia.
  rewrite !Z.pow_succ_r by lia.
  generalize dependent (2 ^ (Z.pos (digits2_pos p) - 1)).
  generalize dependent (2 ^ Z.pos (digits2_pos p)). intros; lia.
- simpl. lia.
Qed.

Lemma shr_1_shifted (M j : Z) (rec : shr_record) :
0 <= j -> shifted M j rec -> shifted M (j + 1) (shr_1 rec).
Proof.
unfold shifted. intros Hj [Hm [[Hlo Hhi] _]].
rewrite Z.pow_add_r by lia. change (2 ^ 1) with 2.
assert (Hpow : 0 < 2 ^ j) by (apply Z.pow_pos_nonneg; lia).
set (G := 2 ^ j) in *. clearbody G.
destruct rec as [m r s]. cbn [shr_m shr_r] in Hm, Hlo, Hhi.
destruct m as [| p | p]; [| destruct p as [p | p |] |];
  cbn [shr_1 shr_m shr_r];
  try rewrite (Pos2Z.inj_xI p) in *; try rewrite (Pos2Z.inj_xO p) in *;
  try lia;
  (repeat apply conj; try lia; intros Hbit; try discriminate Hbit; nia).
Qed.

Lemma iter_shr_1_shifted (M : Z) (p : positive) :
forall (j : Z) (rec : shr_record),
  0 <= j -> shifted M j rec -> shifted M (j + Zpos p) (iter_pos shr_1 p rec).
Proof.
induction p as [p IH | p IH |]; intros j rec Hj Hrec; simpl iter_pos.
- replace (j + Zpos p~1) with (j + 1 + Zpos p + Zpos p) by lia.
  apply IH; [lia |]. apply IH; [lia |]. apply shr_1_shifted; assumption.
- replace (j + Zpos p~0) with (j + Zpos p + Zpos p) by lia.
  apply IH; [lia |]. apply IH; assumption.
- apply shr_1_shifted; assumption.
Qed.

Lemma shifted_start (M : Z) :
0 <= M -> shifted M 0 (Build_shr_record M false false).
Proof.
intros HM. unfold shifted. cbn [shr_m shr_r]. change (2 ^ 0) with 1.
repeat apply conj; try lia; intros Hbit; try discriminate Hbit; lia.
Qed.

Lemma shr_shifted (M E n : Z) :
0 <= M ->
shifted M (Z.max n 0) (fst (shr (Build_shr_record M false false) E n))
/\ snd (shr (Build_shr_record M false false) E n) = E + Z.max n 0.
Proof.
intros HM. destruct n as [| p | p]; cbn [shr fst snd].
- split; [apply shifted_start; exact HM | lia].
- split; [| lia].
  replace (Z.max (Zpos p) 0) with (0 + Zpos p) by lia.
  apply iter_shr_1_shifted; [lia | apply shifted_start; exact HM].
- split; [apply shifted_start; exact HM | lia].
Qed.

Lemma round_nearest_even_bounds (M n : Z) (rec : shr_record) :
shifted M n rec ->
let rnd := round_nearest_even (shr_m rec) (loc_of_shr_record rec) in
0 <= rnd
/\ (forall K, 2 * M < (2 * K + 1) * 2 ^ n -> rnd <= K)
/\ (forall K, K * 2 ^ n <= M -> K <= rnd).
Proof.
unfold shifted. intros [Hm [[Hlo Hhi] [Hr Hnr]]].
assert (Hpow : 0 < 2 ^ n).
{ destruct (Z.le_gt_cases 0 n) as [Hn | Hn].
  - apply Z.pow_pos_nonneg; lia.
  - rewrite Z.pow_neg_r in Hlo, Hhi by lia. lia. }
set (G := 2 ^ n) in *. clearbody G.
destruct rec as [m r s]. cbn [shr_m shr_r] in *.
destruct r.
- specialize (Hr eq_refl). clear Hnr.
  assert (Hrnd : m <= round_nearest_even m (loc_of_shr_record (Build_shr_record m true s))
                 <= m + 1).
  { destruct s; cbn [loc_of_shr_record round_nearest_even];
      [| destruct (Z.even m)]; lia. }
  cbv zeta. set (rnd := round_nearest_even _ _) in *. clearbody rnd.
  repeat apply conj; [lia | intros K HK; nia | intros K HK; nia].
- specialize (Hnr eq_refl). clear Hr.
  assert (Hrnd : round_nearest_even m (loc_of_shr_record (Build_shr_record m false s)) = m).
  { destruct s; reflexivity. }
  cbv zeta. rewrite Hrnd.
  repeat apply conj; [lia | intros K HK; nia | intros K HK; nia].
Qed.

Lemma digits_at_most (q : positive) (k : Z) :
0 <= k -> Zpos q < 2 ^ k -> Zpos (digits2_pos q) <= k.
Proof.
intros Hk Hq. pose proof (digits2_pos_spec q) as [Hlo _].
destruct (Z.le_gt_cases (Zpos (digits2_pos q)) k) as [Hle | Hgt]; [exact Hle |].
exfalso.
assert (2 ^ k <= 2 ^ (Zpos (digits2_pos q) - 1)) by (apply Z.pow_le_mono_r; lia).
lia.
Qed.

Lemma digits_at_least (q : positive) (k : Z) :
2 ^ k <= Zpos q -> k < Zpos (digits2_pos q).
Proof.
intros Hq. pose proof (digits2_pos_spec q) as [_ Hhi].
destruct (Z.lt_ge_cases k (Zpos (digits2_pos q))) as [Hlt | Hge]; [exact Hlt |].
exfalso.
assert (2 ^ Zpos (digits2_pos q) <= 2 ^ k) by (apply Z.pow_le_mono_r; lia).
lia.
Qed.

Lemma shr_fexp_exact (rnd e1 : Z) :
0 <= rnd <= 2 ^ 53 -> -1074 <= e1 ->
match shr_m (fst (shr_fexp 53 1024 rnd e1 loc_Exact)) with
| Z0 => rnd = 0
| Zpos m =>
    Zpos m * 2 ^ (snd (shr_fexp 53 1024 rnd e1 loc_Exact) - e1) = rnd
    /\ e1 <= snd (shr_fexp 53 1024 rnd e1 loc_Exact) <= e1 + 1
| Zneg _ => False
end.
Proof.
intros [Hlo Hhi] He1. unfold shr_fexp, fexp, emin. cbn [shr_record_of_loc].
destruct rnd as [| q | q]; [| | lia].
- cbn [Zdigits2].
  destruct (Z.max (0 + e1 - 53) (3 - 1024 - 53) - e1) eqn:Hn; try lia;
    cbn [shr fst snd shr_m]; reflexivity.
- cbn [Zdigits2].
  destruct (Z.eq_dec (Zpos q) (2 ^ 53)) as [Heq | Hne].
  + injection Heq as Heq. subst q.
    change (Zpos (digits2_pos 9007199254740992)) with 54.
    replace (Z.max (54 + e1 - 53) (3 - 1024 - 53) - e1) with 1 by lia.
    cbn [shr iter_pos shr_1 fst snd shr_m].
    replace (e1 + 1 - e1) with 1 by lia. split; [reflexivity | lia].
  + assert (Hd : Zpos (digits2_pos q) <= 53) by (apply digits_at_most; lia).
    destruct (Z.max (Zpos (digits2_pos q) + e1 - 53) (3 - 1024 - 53) - e1) eqn:Hn;
      try lia; cbn [shr fst snd shr_m];
      (replace (e1 - e1) with 0 by lia); change (2 ^ 0) with 1; split; lia.
Qed.

Lemma binary_round_aux_unfold (sx : bool) (mx ex : Z) (lx : location) :
binary_round_aux 53 1024 sx mx ex lx =
match
  shr_m (fst (shr_fexp 53 1024
                (round_nearest_even (shr_m (fst (shr_fexp 53 1024 mx ex lx)))
                   (loc_of_shr_record (fst (shr_fexp 53 1024 mx ex lx))))
                (snd (shr_fexp 53 1024 mx ex lx)) loc_Exact))
with
| Z0 => S754_zero sx
| Zpos m =>
    if snd (shr_fexp 53 1024
              (round_nearest_even (shr_m (fst (shr_fexp 53 1024 mx ex lx)))
                 (loc_of_shr_record (fst (shr_fexp 53 1024 mx ex lx))))
              (snd (shr_fexp 53 1024 mx ex lx)) loc_Exact) <=? 1024 - 53
    then S754_finite sx m
           (snd (shr_fexp 53 1024
                   (round_nearest_even (shr_m (fst (shr_fexp 53 1024 mx ex lx)))
                      (loc_of_shr_record (fst (shr_fexp 53 1024 mx ex lx))))
                   (snd (shr_fexp 53 1024 mx ex lx)) loc_Exact))
    else S754_infinity sx
| Zneg _ => S754_nan
end.
Proof.
unfold binary_round_aux.
destruct (shr_fexp 53 1024 mx ex lx) as [rec1 e1]. cbn [fst snd].
destruct (shr_fexp 53 1024 _ e1 loc_Exact) as [rec2 e2]. reflexivity.
Qed.

Lemma binary_round_aux_holds (M : positive) (E : Z) :
- scale <= E ->
Zpos (digits2_pos M) + E <= 100 ->
E <= 100 ->
let e' := Z.max (fexp 53 1024 (Zpos (digits2_pos M) + E)) E in
exists rnd,
  0 <= rnd <= 2 ^ 53
  /\ holds (binary_round_aux 53 1024 false (Zpos M) E loc_Exact) (rnd * 2 ^ (e' + scale))
  /\ (forall K, 2 * (Zpos M * 2 ^ (E + scale)) < (2 * K + 1) * 2 ^ (e' + scale) ->
                rnd <= K)
  /\ (forall K, K * 2 ^ (e' + scale) <= Zpos M * 2 ^ (E + scale) -> K <= rnd).
Proof.
intros HE Hd HE' e'.
set (fe := fexp 53 1024 (Zpos (digits2_pos M) + E)) in *.
assert (Hfe : fe = Z.max (Zpos (digits2_pos M) + E - 53) (-1074)) by reflexivity.
pose proof (shr_shifted (Zpos M) E (fe - E) (Pos2Z.is_nonneg M)) as [Hshift He1].
assert (Hn : Z.max (fe - E) 0 = e' - E) by (unfold e'; lia).
rewrite Hn in Hshift, He1.
pose proof (round_nearest_even_bounds _ _ _ Hshift) as Hrnd. cbv zeta in Hrnd.
rewrite binary_round_aux_unfold.
change (shr_fexp 53 1024 (Zpos M) E loc_Exact)
  with (shr (Build_shr_record (Zpos M) false false) E (fe - E)).
set (rec := fst (shr (Build_shr_record (Zpos M) false false) E (fe - E))) in *.
set (e1 := snd (shr (Build_shr_record (Zpos M) false false) E (fe - E))) in *.
set (rnd := round_nearest_even (shr_m rec) (loc_of_shr_record rec)) in *.
clearbody rnd e1 rec.
destruct Hrnd as [Hrnd0 [Hnear Hmono]].
assert (He' : E <= e' /\ -1074 <= e' /\ Zpos (digits2_pos M) + E - 53 <= e' <= 100)
  by (unfold e'; lia).
clearbody e'. clear Hn Hshift.
assert (Hpow : 0 < 2 ^ (e' - E)) by (apply Z.pow_pos_nonneg; lia).
assert (Hrnd53 : rnd <= 2 ^ 53).
{ apply Hnear.
  pose proof (digits2_pos_spec M) as [_ Hdig].
  assert (Hle : 2 ^ Zpos (digits2_pos M) <= 2 ^ (53 + (e' - E)))
    by (apply Z.pow_le_mono_r; lia).
  rewrite Z.pow_add_r in Hle by lia. lia. }
assert (Hgrid : 2 ^ (e' + scale) = 2 ^ (e' - E) * 2 ^ (E + scale)).
{ rewrite <- Z.pow_add_r by lia. f_equal; lia. }
assert (HpowE : 0 < 2 ^ (E + scale)) by (apply Z.pow_pos_nonneg; lia).
exists rnd.
split; [split; assumption |].
split; [| split; intros K HK; [apply Hnear | apply Hmono]; rewrite Hgrid in HK; nia].
assert (He1' : e1 = e') by lia. clear He1. subst e1.
pose proof (shr_fexp_exact rnd e' (conj Hrnd0 Hrnd53) ltac:(lia)) as Hsecond.
set (res2 := shr_fexp 53 1024 rnd e' loc_Exact) in *. clearbody res2.
destruct (shr_m (fst res2)) as [| m | m].
- rewrite Hsecond. cbn [holds]. apply Z.mul_0_l.
- destruct Hsecond as [Hval He2].
  replace (snd res2 <=? 1024 - 53) with true by (symmetry; apply Z.leb_le; lia).
  cbn [holds]. split; [lia |].
  rewrite <- Hval.
  replace (snd res2 + scale) with ((snd res2 - e') + (e' + scale)) by lia.
  rewrite (Z.pow_add_r 2 (snd res2 - e') (e' + scale)) by lia. ring.
- contradiction.
Qed.

Lemma random_shape (r : number) :
isRandom r = true ->
(exists s, r = S754_zero s)
\/ (exists m e, r = S754_finite false m e /\ -1074 <= e <= -53 /\ Zpos m < 2 ^ 53).
Proof.
unfold isRandom. intros H.
apply andb_prop in H. destruct H as [H Hlt].
apply andb_prop in H. destruct H as [Hvalid Hle].
destruct r as [s | s | | s m e].
- left. exists s. reflexivity.
- destruct s; discriminate.
- discriminate.
- right. exists m, e.
  destruct s; [discriminate |]. split; [reflexivity |].
  unfold valid_binary, bounded, canonical_mantissa, fexp, emin in Hvalid.
  apply andb_prop in Hvalid. destruct Hvalid as [Hcanon _].
  apply Z.eqb_eq in Hcanon.
  change (Num.of_Z 1) with (S754_finite false 4503599627370496 (-52)) in Hlt.
  unfold SFltb, SFcompare in Hlt.
  pose proof (digits2_pos_spec m) as [Hdlo Hdhi].
  assert (Hd53 : Zpos (digits2_pos m) <= 53) by lia.
  assert (Hm : Zpos m < 2 ^ 53).
  { assert (2 ^ Zpos (digits2_pos m) <= 2 ^ 53) by (apply Z.pow_le_mono_r; lia). lia. }
  destruct (Z.compare_spec e (-52)) as [Heq | Hlt' | Hgt]; try discriminate.
  + exfalso. subst e.
    assert (Hdig : Zpos (digits2_pos m) = 53) by lia.
    rewrite Hdig in Hdlo. change (2 ^ (53 - 1)) with 4503599627370496 in Hdlo.
    destruct (Pos.compare_cont Eq m 4503599627370496) eqn:Hcmp; try discriminate.
    assert (Hless : Zpos m < 4503599627370496) by exact Hcmp.
    clear - Hless Hdlo. lia.
  + repeat split; try lia.
Qed.

Lemma product_holds (r : number) :
isRandom r = true ->
exists V,
  holds (Num.mul r (Num.of_Z 90000000)) V
  /\ 0 <= V <= (6039797760000000 - 1) * 2 ^ (scale - 26).
Proof.
intros Hr. apply random_shape in Hr.
change (Num.of_Z 90000000) with (S754_finite false 6039797760000000 (-26)).
assert (Hunit : 0 < 2 ^ (scale - 26)) by (apply Z.pow_pos_nonneg; unfold scale; lia).
destruct Hr as [[s Hzero] | [m [e [Hfin [He Hm]]]]]; subst r.
- exists 0. split; [destruct s; reflexivity | lia].
- unfold Num.mul, Num.prec, Num.emax, SFmul. cbn [xorb].
  set (M := (m * 6039797760000000)%positive).
  assert (HM : Zpos M = Zpos m * 6039797760000000) by reflexivity.
  assert (Hdhi : Zpos (digits2_pos M) <= 106).
  { apply digits_at_most; [lia |]. rewrite HM.
    change (2 ^ 106) with (2 ^ 53 * 2 ^ 53). nia. }
  assert (Hdlo : 52 < Zpos (digits2_pos M)).
  { apply digits_at_least. rewrite HM.
    change (2 ^ 52) with 4503599627370496. lia. }
  destruct (binary_round_aux_holds M (e + -26)) as [rnd [[Hrnd0 Hrnd53] [Hholds [Hnear _]]]];
    try (unfold scale; lia).
  set (e' := Z.max (fexp 53 1024 (Zpos (digits2_pos M) + (e + -26))) (e + -26)) in *.
  assert (He' : e + -26 <= e' <= -26 /\ (e' = -26 -> e = -53)).
  { unfold e', fexp, emin. lia. }
  clearbody e'.
  exists (rnd * 2 ^ (e' + scale)). split; [exact Hholds |].
  assert (Hgrid : 0 < 2 ^ (e' + scale)) by (apply Z.pow_pos_nonneg; unfold scale; lia).
  split; [nia |].
  destruct (Z.eq_dec e' (-26)) as [Heq | Hne].
  + assert (e = -53) by (apply He'; exact Heq). subst e e'.
    assert (Hle : rnd <= 6039797760000000 - 1).
    { apply Hnear. rewrite HM.
      replace (-26 + scale) with (scale - 26) by lia.
      replace (-53 + -26 + scale) with (scale - 79) by lia.
      replace (scale - 26) with (53 + (scale - 79)) by lia.
      rewrite (Z.pow_add_r 2 53 (scale - 79)) by (unfold scale; lia).
      assert (0 < 2 ^ (scale - 79)) by (apply Z.pow_pos_nonneg; unfold scale; lia).
      change (2 ^ 53) with 9007199254740992 in *. nia. }
    replace (-26 + scale) with (scale - 26) by lia. nia.
  + assert (Hpow : 2 ^ (e' + scale) * 2 <= 2 ^ (scale - 26)).
    { replace (scale - 26) with ((scale - 27) + 1) by lia.
      rewrite (Z.pow_add_r 2 (scale - 27) 1) by (unfold scale; lia).
      change (2 ^ 1) with 2.
      assert (2 ^ (e' + scale) <= 2 ^ (scale - 27))
        by (apply Z.pow_le_mono_r; unfold scale; lia).
      lia. }
    change (2 ^ 53) with 9007199254740992 in *. nia.
Qed.

Lemma iter_xO_value (m d : positive) :
Zpos (Pos.iter xO m d) = Zpos m * 2 ^ Zpos d.
Proof.
induction d as [| d IH] using Pos.peano_ind.
- cbn [Pos.iter]. rewrite (Pos2Z.inj_xO m). change (2 ^ 1) with 2. lia.
- rewrite Pos.iter_succ, (Pos2Z.inj_xO (Pos.iter xO m d)), IH, Pos2Z.inj_succ.
  rewrite Z.pow_succ_r by lia. ring.
Qed.

Lemma shl_align_value (mx : positive) (ex ex' : Z) :
ex' <= ex ->
Zpos (fst (shl_align mx ex ex')) = Zpos mx * 2 ^ (ex - ex')
/\ snd (shl_align mx ex ex') = ex'.
Proof.
intros Hle. unfold shl_align.
destruct (ex' - ex) as [| d | d] eqn:Hd; cbn [fst snd]; try lia.
- replace (ex - ex') with 0 by lia. change (2 ^ 0) with 1. lia.
- rewrite iter_xO_value. replace (ex - ex') with (Zpos d) by lia. split; reflexivity.
Qed.

Lemma shl_align_noop (mx : positive) (ex ex' : Z) :
ex <= ex' -> shl_align mx ex ex' = (mx, ex).
Proof.
intros Hle. unfold shl_align.
destruct (ex' - ex) as [| d | d] eqn:Hd; try reflexivity. lia.
Qed.

Lemma sum_holds (P : number) (V : Z) :
holds P V ->
0 <= V <= (6039797760000000 - 1) * 2 ^ (scale - 26) ->
exists VS,
  holds (Num.add (Num.of_Z 10000000) P) VS
  /\ 10000000 * 2 ^ scale <= VS <= (100000000 * 2 ^ 26 - 1) * 2 ^ (scale - 26).
Proof.
intros HP HV.
pose proof (eq_refl : scale = 1100) as Hscale.
change (Num.of_Z 10000000) with (S754_finite false 5368709120000000 (-29)).
assert (Hu26 : 0 < 2 ^ (scale - 26)) by (apply Z.pow_pos_nonneg; lia).
assert (Hs26 : 2 ^ scale = 2 ^ 26 * 2 ^ (scale - 26)).
{ rewrite <- Z.pow_add_r by lia. f_equal; lia. }
assert (Hs29 : 2 ^ (scale - 26) * 2 ^ 3 = 2 ^ (-29 + scale) * 2 ^ 6 /\ 2 ^ (-29 + scale) * 8 = 2 ^ (scale - 26)).
{ split.
  - rewrite <- !Z.pow_add_r by lia. f_equal; lia.
  - change 8 with (2 ^ 3). rewrite <- Z.pow_add_r by lia. f_equal; lia. }
destruct Hs29 as [_ Hs29].
change (2 ^ 26) with 67108864 in *.
destruct P as [s | s | | s mP eP]; try contradiction.
- cbn [holds] in HP. subst V.
  exists (5368709120000000 * 2 ^ (-29 + scale)).
  split; [cbn; split; [unfold scale; lia | reflexivity] |].
  rewrite Hs26. lia.
- destruct s; [contradiction |]. cbn [holds] in HP. destruct HP as [HeP HVeq].
  unfold Num.add, Num.prec, Num.emax, SFadd. cbn [cond_Zopp].
  set (ez := Z.min (-29) eP).
  destruct (shl_align_value 5368709120000000 (-29) ez ltac:(unfold ez; lia)) as [Ha _].
  destruct (shl_align_value mP eP ez ltac:(unfold ez; lia)) as [Hb _].
  set (a := fst (shl_align 5368709120000000 (-29) ez)) in *.
  set (b := fst (shl_align mP eP ez)) in *.
  change (Zpos a + Zpos b) with (Zpos (a + b)).
  cbn [binary_normalize]. unfold binary_round.
  set (sigma := (a + b)%positive).
  assert (Hsigma : Zpos sigma = Zpos a + Zpos b) by reflexivity.
  assert (Hez : - scale <= ez <= -29) by (unfold ez; lia).
  assert (Hgz : 0 < 2 ^ (ez + scale)) by (apply Z.pow_pos_nonneg; lia).
  assert (HX : Zpos sigma * 2 ^ (ez + scale) = 5368709120000000 * 2 ^ (-29 + scale) + V).
  { rewrite Hsigma, Ha, Hb, HVeq. rewrite Z.mul_add_distr_r.
    rewrite <- !Z.mul_assoc, <- !Z.pow_add_r by lia.
    f_equal; f_equal; f_equal; lia. }
  clearbody sigma. clear Ha Hb Hsigma. clearbody a b.
  assert (Hdlo : 23 - ez < Zpos (digits2_pos sigma)).
  { apply digits_at_least.
    apply (Z.mul_le_mono_pos_r _ _ (2 ^ (ez + scale)) Hgz).
    rewrite <- Z.pow_add_r by lia. replace (23 - ez + (ez + scale)) with (23 + scale) by lia.
    rewrite (Z.pow_add_r 2 23 scale) by lia. change (2 ^ 23) with 8388608.
    rewrite HX, Hs26. lia. }
  assert (Hdhi : Zpos (digits2_pos sigma) <= 27 - ez).
  { apply digits_at_most; [lia |].
    apply (Z.mul_lt_mono_pos_r (2 ^ (ez + scale)) _ _ Hgz).
    rewrite <- Z.pow_add_r by lia. replace (27 - ez + (ez + scale)) with (27 + scale) by lia.
    rewrite (Z.pow_add_r 2 27 scale) by lia. change (2 ^ 27) with 134217728.
    rewrite HX, Hs26. lia. }
  rewrite shl_align_noop by (unfold fexp, emin; lia).
  destruct (binary_round_aux_holds sigma ez) as [rnd [[Hrnd0 Hrnd53] [Hholds [Hnear Hmono]]]];
    try lia.
  set (e' := Z.max (fexp 53 1024 (Zpos (digits2_pos sigma) + ez)) ez) in *.
  assert (He' : -29 <= e' <= -26) by (unfold e', fexp, emin; lia).
  clearbody e'.
  exists (rnd * 2 ^ (e' + scale)). split; [exact Hholds |].
  assert (Hg : 0 < 2 ^ (e' + scale)) by (apply Z.pow_pos_nonneg; lia).
  assert (Hlo : 2 ^ scale = 2 ^ (- e') * 2 ^ (e' + scale)).
  { rewrite <- Z.pow_add_r by lia. f_equal; lia. }
  assert (Hhi : 2 ^ (scale - 26) = 2 ^ (-26 - e') * 2 ^ (e' + scale)).
  { rewrite <- Z.pow_add_r by lia. f_equal; lia. }
  rewrite HX in Hnear, Hmono.
  split.
  + specialize (Hmono (10000000 * 2 ^ (- e'))).
    rewrite Hlo.
    assert (10000000 * 2 ^ (- e') <= rnd).
    { apply Hmono. rewrite <- Z.mul_assoc, <- Hlo, Hs26. lia. }
    nia.
  + specialize (Hnear ((100000000 * 67108864 - 1) * 2 ^ (-26 - e'))).
    rewrite Hhi.
    assert (rnd <= (100000000 * 67108864 - 1) * 2 ^ (-26 - e')).
    { apply Hnear.
      assert (Hexp : (2 * ((100000000 * 67108864 - 1) * 2 ^ (-26 - e')) + 1) * 2 ^ (e' + scale)
                     = 2 * (100000000 * 67108864 - 1) * 2 ^ (scale - 26) + 2 ^ (e' + scale)).
      { rewrite Hhi. ring. }
      rewrite Hexp. lia. }
    nia.
Qed.

Lemma floorZ_holds (F : number) (V A B : Z) :
holds F V ->
0 < A ->
A * 2 ^ scale <= V < B * 2 ^ scale ->
exists n, floorZ F = Some n /\ A <= n < B /\ floor_string F = string_of_Z n.
Proof.
intros HF HA [Hlo Hhi].
pose proof (eq_refl : scale = 1100) as Hscale.
assert (Hs : 0 < 2 ^ scale) by (apply Z.pow_pos_nonneg; lia).
destruct F as [s | s | | s m e]; try contradiction.
- cbn [holds] in HF. subst V. nia.
- destruct s; [contradiction |]. cbn [holds] in HF. destruct HF as [He HV].
  cbn [floorZ floor_string].
  eexists. split; [reflexivity |]. split; [| reflexivity].
  destruct (Z.leb_spec 0 e) as [Hpos | Hneg].
  + assert (Hsplit : 2 ^ (e + scale) = 2 ^ e * 2 ^ scale) by (apply Z.pow_add_r; lia).
    rewrite Hsplit in HV. nia.
  + assert (Hsplit : 2 ^ scale = 2 ^ (- e) * 2 ^ (e + scale)).
    { rewrite <- Z.pow_add_r by lia. f_equal; lia. }
    assert (Hg : 0 < 2 ^ (e + scale)) by (apply Z.pow_pos_nonneg; lia).
    assert (Hd : 0 < 2 ^ (- e)) by (apply Z.pow_pos_nonneg; lia).
    rewrite Hsplit in Hlo, Hhi. subst V.
    split.
    * apply Z.div_le_lower_bound; [exact Hd | nia].
    * apply Z.div_lt_upper_bound; [exact Hd | nia].
Qed.

Lemma decimal_digits_step (fuel : nat) (n : Z) (acc : string) :
decimal_digits (S fuel) n acc =
if n <? 10 then String (digit_char (n mod 10)) acc
else decimal_digits fuel (n / 10) (String (digit_char (n mod 10)) acc).
Proof. reflexivity. Qed.

Lemma digit_value_char (d : Z) :
0 <= d <= 9 -> digit_value (digit_char d) = Some d.
Proof.
intros Hd.
assert (Hcases : d = 0 \/ d = 1 \/ d = 2 \/ d = 3 \/ d = 4 \/ d = 5 \/ d = 6
                 \/ d = 7 \/ d = 8 \/ d = 9) by lia.
repeat (destruct Hcases as [Hcases | Hcases]; [subst d; reflexivity |]).
subst d. reflexivity.
Qed.

Lemma div10_step (a lo hi : Z) :
10 * lo <= a <= 10 * hi + 9 ->
lo <= a / 10 <= hi /\ 0 <= a mod 10 <= 9 /\ a = 10 * (a / 10) + a mod 10.
Proof.
intros Ha.
pose proof (Z.div_mod a 10 ltac:(lia)) as Hdiv.
pose proof (Z.mod_pos_bound a 10 ltac:(lia)) as Hmod.
lia.
Qed.

Lemma string_of_Z_eight (n : Z) :
10000000 <= n <= 99999999 ->
exists digits,
  string_of_Z n = digits
  /\ String.length digits = 8%nat
  /\ read_digits 8 digits 0 = Some (n, EmptyString).
Proof.
intros Hn. unfold string_of_Z.
replace (n <? 0) with false by (symmetry; apply Z.ltb_ge; lia).
assert (Hlog : 23 <= Z.log2 n).
{ change 23 with (Z.log2 10000000). apply Z.log2_le_mono. lia. }
assert (Hfuel : exists k, Z.to_nat (Z.log2 n) = (7 + k)%nat).
{ exists (Z.to_nat (Z.log2 n) - 7)%nat. lia. }
destruct Hfuel as [k Hfuel]. rewrite Hfuel. cbn [Nat.add]. clear Hfuel Hlog.
do 8 rewrite decimal_digits_step.
destruct (div10_step n 1000000 9999999 ltac:(lia)) as [H1 [D0 E0]].
set (d0 := n mod 10) in *. set (n1 := n / 10) in *. clearbody d0 n1.
destruct (div10_step n1 100000 999999 ltac:(lia)) as [H2 [D1 E1]].
set (d1 := n1 mod 10) in *. set (n2 := n1 / 10) in *. clearbody d1 n2.
destruct (div10_step n2 10000 99999 ltac:(lia)) as [H3 [D2 E2]].
set (d2 := n2 mod 10) in *. set (n3 := n2 / 10) in *. clearbody d2 n3.
destruct (div10_step n3 1000 9999 ltac:(lia)) as [H4 [D3 E3]].
set (d3 := n3 mod 10) in *. set (n4 := n3 / 10) in *. clearbody d3 n4.
destruct (div10_step n4 100 999 ltac:(lia)) as [H5 [D4 E4]].
set (d4 := n4 mod 10) in *. set (n5 := n4 / 10) in *. clearbody d4 n5.
destruct (div10_step n5 10 99 ltac:(lia)) as [H6 [D5 E5]].
set (d5 := n5 mod 10) in *. set (n6 := n5 / 10) in *. clearbody d5 n6.
destruct (div10_step n6 1 9 ltac:(lia)) as [H7 [D6 E6]].
set (d6 := n6 mod 10) in *. set (n7 := n6 / 10) in *. clearbody d6 n7.
assert (D7 : n7 mod 10 = n7) by (apply Z.mod_small; lia).
rewrite D7.
replace (n <? 10) with false by (symmetry; apply Z.ltb_ge; lia).
replace (n1 <? 10) with false by (symmetry; apply Z.ltb_ge; lia).
replace (n2 <? 10) with false by (symmetry; apply Z.ltb_ge; lia).
replace (n3 <? 10) with false by (symmetry; apply Z.ltb_ge; lia).
replace (n4 <? 10) with false by (symmetry; apply Z.ltb_ge; lia).
replace (n5 <? 10) with false by (symmetry; apply Z.ltb_ge; lia).
replace (n6 <? 10) with false by (symmetry; apply Z.ltb_ge; lia).
replace (n7 <? 10) with true by (symmetry; apply Z.ltb_lt; lia).
eexists. split; [reflexivity |]. split; [reflexivity |].
cbn [read_digits].
repeat (rewrite digit_value_char by lia).
f_equal. f_equal. lia.
Qed.

Lemma generateTrackingNumber_format (random : number) :
isRandom random = true ->
exists n digits,
  10000000 <= n <= 99999999
  /\ generateTrackingNumber random = ("ST" ++ digits)%string
  /\ String.length digits = 8%nat
  /\ read_digits 8 digits 0 = Some (n, EmptyString).
Proof.
intros Hrandom.
destruct (product_holds random Hrandom) as [V [HP HV]].
destruct (sum_holds _ V HP HV) as [VS [HS [HSlo HShi]]].
pose proof (eq_refl : scale = 1100) as Hscale.
destruct (floorZ_holds _ VS 10000000 100000000 HS ltac:(lia)) as [n [_ [Hn Hstring]]].
{ split; [exact HSlo |].
  assert (Hs26 : 2 ^ scale = 2 ^ 26 * 2 ^ (scale - 26)).
  { rewrite <- Z.pow_add_r by lia. f_equal; lia. }
  assert (Hu26 : 0 < 2 ^ (scale - 26)) by (apply Z.pow_pos_nonneg; lia).
  rewrite Hs26. change (2 ^ 26) with 67108864 in *. nia. }
destruct (string_of_Z_eight n ltac:(lia)) as [digits [Hdigits [Hlen Hread]]].
exists n, digits. repeat apply conj; try lia; try assumption.
unfold generateTrackingNumber. rewrite Hstring, Hdigits. reflexivity.
Qed.

End TrackingNumbers.

(** C3. For every value [Math.random()] can return, [markAsShipped] gives
    each stored order with the given id the status ['shipped'] and a
    tracking number in one and the same update of the order, its other
    fields kept; the tracking number is [ST] followed by exactly 8 decimal
    digits, and the number they spell lies between 10000000 and 99999999. *)
Theorem markAsShipped_tracking (getTime : string -> option Z) (random : number)
    (orderId : string) (ls : LocalStorage) (orders : list Order.t) :
  isRandom random = true ->
  allOrders ls = Json orders ->
  exists (n : Z) (digits : string),
    (10000000 <= n <= 99999999)%Z
    /\ String.length digits = 8
    /\ read_digits 8 digits 0%Z = Some (n, "")
    /\ generateTrackingNumber random = ("ST" ++ digits)%string
    /\ exists updated,
         allOrders (storage (markAsShipped getTime random orderId ls)) = Json updated
         /\ Forall2 (fun order order' =>
                       Order.id order = orderId ->
                       order' = with_status_tracking order "shipped" ("ST" ++ digits)%string
                       /\ Order.status order' = "shipped"
                       /\ Order.trackingNumber order' = Some ("ST" ++ digits)%string
                       /\ same_core order order')
              orders updated.
Proof.
  intros Hrandom Hstored.
  destruct (generateTrackingNumber_format random Hrandom)
    as [n [digits [Hn [Hformat [Hlen Hread]]]]].
  exists n, digits. repeat apply conj; try assumption; try apply Hn.
  exists (map (toShipped orderId (generateTrackingNumber random)) orders).
  unfold markAsShipped. rewrite Hstored. simpl. split; [reflexivity |].
  apply Forall2_map_self. intros order Hid.
  rewrite (toShipped_match _ _ _ Hid), Hformat.
  unfold same_core. simpl. repeat apply conj; reflexivity.
Qed.

Lemma markAsShipped_tracking_witness :
  exists (n : Z) (digits : string),
    (10000000 <= n <= 99999999)%Z
    /\ String.length digits = 8
    /\ read_digits 8 digits 0%Z = Some (n, "")
    /\ generateTrackingNumber (Num.decimal 5 1) = ("ST" ++ digits)%string
    /\ exists updated,
         allOrders (storage (markAsShipped isoTime (Num.decimal 5 1)
                               "MOCA-1705314600000" sampleStore)) = Json updated
         /\ Forall2 (fun order order' =>
                       Order.id order = "MOCA-1705314600000" ->
                       order' = with_status_tracking order "shipped" ("ST" ++ digits)%string
                       /\ Order.status order' = "shipped"
                       /\ Order.trackingNumber order' = Some ("ST" ++ digits)%string
                       /\ same_core order order')
              [sampleOrder1; sampleOrder2] updated.
Proof.
  apply (markAsShipped_tracking isoTime (Num.decimal 5 1) "MOCA-1705314600000"
           sampleStore [sampleOrder1; sampleOrder2]).
  - vm_compute. reflexivity.
  - reflexivity.
Defined.

Example generateTrackingNumber_samples :
  generateTrackingNumber Num.zero = "ST10000000"
  /\ generateTrackingNumber (Num.decimal 5 1) = "ST55000000"
  /\ isRandom (S754_finite false 9007199254740991 (-53)) = true
  /\ generateTrackingNumber (S754_finite false 9007199254740991 (-53)) = "ST99999999".
Proof. repeat apply conj; vm_compute; reflexivity. Qed.

(** ** Signing in and out *)

Lemma isTrue_spec (flag : option string) :
  isTrue flag = true <-> flag = Some "true".
Proof.
  unfold isTrue. destruct flag as [text |].
  - rewrite String.eqb_eq. split; congruence.
  - split; discriminate.
Qed.

(** X1. The one-time code alone decides the patient sign-in: with the code
    [123456] and any non-empty email, the home page then leads to the
    dashboard and the dashboard lets the patient in under the email typed,
    the admin keys, cart, orders and current order being left as they were;
    with any other code nothing is stored and ["Invalid OTP"] is alerted. *)
Theorem otp_decides_sign_in (email otp : string) (b : Browser) :
  (otp = "123456" -> email <> "" ->
   Home (fst (handleOtpSubmit email otp b)) = Navigate "/dashboard"
   /\ dashboardMount (fst (handleOtpSubmit email otp b)) = (Some email, Silent)
   /\ snd (handleOtpSubmit email otp b) = Navigate "/dashboard"
   /\ isAdminAuthenticated (auth (fst (handleOtpSubmit email otp b)))
      = isAdminAuthenticated (auth b)
   /\ adminEmail (auth (fst (handleOtpSubmit email otp b))) = adminEmail (auth b)
   /\ cartItems (data (fst (handleOtpSubmit email otp b))) = cartItems (data b)
   /\ allOrders (data (fst (handleOtpSubmit email otp b))) = allOrders (data b)
   /\ currentOrder (data (fst (handleOtpSubmit email otp b))) = currentOrder (data b))
  /\ (otp <> "123456" -> handleOtpSubmit email otp b = (b, Alert "Invalid OTP")).
Proof.
  unfold handleOtpSubmit. split.
  - intros Hotp Hemail. subst otp. simpl.
    unfold dashboardMount. simpl.
    rewrite (proj2 (String.eqb_neq email "") Hemail). simpl.
    repeat apply conj; reflexivity.
  - intros Hotp. rewrite (proj2 (String.eqb_neq otp "123456") Hotp). reflexivity.
Qed.

(** X2. The admin sign-in succeeds exactly on the pair
    [admin@moca.com] / [password123]: then the admin dashboard opens on the
    stored orders and the patient's keys and the data are untouched; on any
    other pair the store is left as it was, the error text is set and the
    page stays. *)
Theorem handleLogin_credentials (getTime : string -> option Z)
    (email password : string) (b : Browser) :
  (email = "admin@moca.com" /\ password = "password123" ->
   adminDashboardMount getTime (fst (fst (handleLogin email password b)))
   = (Some (loadOrders getTime (data b)), Silent)
   /\ snd (handleLogin email password b) = Navigate "/admin/dashboard"
   /\ isAuthenticated (auth (fst (fst (handleLogin email password b))))
      = isAuthenticated (auth b)
   /\ data (fst (fst (handleLogin email password b))) = data b)
  /\ (~ (email = "admin@moca.com" /\ password = "password123") ->
      handleLogin email password b = (b, "Invalid email or password", Silent)).
Proof.
  unfold handleLogin. split.
  - intros [Hemail Hpassword]. subst email password. simpl.
    repeat apply conj; reflexivity.
  - intros Hwrong.
    destruct (String.eqb_spec email "admin@moca.com") as [Hemail | Hemail];
      destruct (String.eqb_spec password "password123") as [Hpassword | Hpassword];
      simpl; try reflexivity.
    exfalso. apply Hwrong. split; assumption.
Qed.

(** X3. After the patient logs out every patient page sends to the login
    page, while the stored cart, the order collection, the current order
    and the admin's sign-in stay in the store. *)
Theorem handleLogout_closes_patient_pages (b : Browser) :
  Home (fst (handleLogout b)) = Navigate "/login"
  /\ dashboardMount (fst (handleLogout b)) = (None, Navigate "/login")
  /\ checkoutMount (fst (handleLogout b)) = ([], Navigate "/login")
  /\ orderSuccessMount (fst (handleLogout b)) = (None, Navigate "/login")
  /\ cartItems (data (fst (handleLogout b))) = cartItems (data b)
  /\ allOrders (data (fst (handleLogout b))) = allOrders (data b)
  /\ currentOrder (data (fst (handleLogout b))) = currentOrder (data b)
  /\ isAdminAuthenticated (auth (fst (handleLogout b))) = isAdminAuthenticated (auth b)
  /\ adminEmail (auth (fst (handleLogout b))) = adminEmail (auth b).
Proof. repeat apply conj; reflexivity. Qed.

(** X4. What one patient left in the store is there for the next: after a
    logout and a sign-in under any email, the checkout page opens on the
    cart stored before, and the success page on the order stored before. *)
Theorem stored_cart_survives_sign_in (email : string) (b : Browser)
    (cart : list CartItem.t) (order : Order.t) :
  cartItems (data b) = Json cart ->
  currentOrder (data b) = Json order ->
  checkoutMount (fst (handleOtpSubmit email "123456" (fst (handleLogout b))))
  = (cart, Silent)
  /\ orderSuccessMount (fst (handleOtpSubmit email "123456" (fst (handleLogout b))))
     = (Some order, Silent).
Proof.
  intros Hcart Horder. unfold checkoutMount, orderSuccessMount. simpl.
  rewrite Hcart, Horder. split; reflexivity.
Qed.

(** X5. The home page and the dashboard disagree exactly when the sign-in
    flag is set but no non-empty email is stored: the home page sends to the
    dashboard and the dashboard back to the login page.  Submitting the
    right code with an empty email leaves the store so. *)
Theorem home_dashboard_disagree (b : Browser) :
  ((Home b = Navigate "/dashboard" /\ snd (dashboardMount b) = Navigate "/login")
   <-> (isAuthenticated (auth b) = Some "true"
        /\ (userEmail (data b) = None \/ userEmail (data b) = Some "")))
  /\ Home (fst (handleOtpSubmit "" "123456" b)) = Navigate "/dashboard"
  /\ snd (dashboardMount (fst (handleOtpSubmit "" "123456" b))) = Navigate "/login".
Proof.
  split; [| split; reflexivity].
  unfold Home, dashboardMount. rewrite <- isTrue_spec.
  destruct (isTrue (isAuthenticated (auth b))); simpl.
  - destruct (userEmail (data b)) as [email |]; simpl.
    + destruct (String.eqb_spec email "") as [Hempty | Hfilled]; simpl.
      * subst email. split; [intros _; split; [reflexivity | right; reflexivity] |].
        intros _. split; reflexivity.
      * split; [intros [_ Hgo]; discriminate |].
        intros [_ [Hnone | Hsome]]; [discriminate | congruence].
    + split; [intros _; split; [reflexivity | left; reflexivity] |].
      intros _. split; reflexivity.
  - split; [intros [Hgo _]; discriminate | intros [Hflag _]; discriminate].
Qed.

(** ** From the cart to the order *)

Lemma fold_left_line_totals_app (cart : list CartItem.t) (item : CartItem.t) :
  cartTotal (cart ++ [item]) = Num.add (cartTotal cart) (line_total item).
Proof. unfold cartTotal. rewrite fold_left_app. reflexivity. Qed.

Lemma proceedToCheckout_stores (cart : list CartItem.t) (b : Browser) :
  isAuthenticated (auth b) = Some "true" ->
  cart <> [] ->
  snd (proceedToCheckout cart (data b)) = Navigate "/checkout"
  /\ checkoutMount (onData (fun ls => fst (proceedToCheckout cart ls)) b)
     = (cart, Silent)
  /\ allOrders (fst (proceedToCheckout cart (data b))) = allOrders (data b)
  /\ userEmail (fst (proceedToCheckout cart (data b))) = userEmail (data b).
Proof.
  intros Hauth Hlines. destruct cart as [| item cart]; [contradiction |].
  unfold checkoutMount, onData. simpl. rewrite Hauth. simpl.
  repeat apply conj; reflexivity.
Qed.

Lemma jsonNumber_exact (x : number) : jsonExact x = true -> jsonNumber x = Some x.
Proof.
  destruct x as [negative | negative | | negative m e]; simpl; intros H;
    try discriminate H; [| reflexivity].
  destruct negative; [discriminate H | reflexivity].
Qed.

Lemma jsonLine_exact (item : CartItem.t) :
  lineExact item = true -> jsonLine item = Some item.
Proof.
  unfold lineExact, jsonLine. intros H.
  apply andb_prop in H. destruct H as [H Hselected].
  apply andb_prop in H. destruct H as [H Hprice].
  apply andb_prop in H. destruct H as [Hquantity Hrepeats].
  rewrite (jsonNumber_exact _ Hquantity), (jsonNumber_exact _ Hrepeats),
    (jsonNumber_exact _ Hprice), (jsonNumber_exact _ Hselected).
  destruct item as [p quantitySelected]. destruct p. reflexivity.
Qed.

Lemma jsonCart_exact (cart : list CartItem.t) :
  cartExact cart = true -> jsonCart cart = Some cart.
Proof.
  induction cart as [| item rest IH]; [reflexivity |].
  cbn [cartExact forallb jsonCart]. intros H.
  apply andb_prop in H. destruct H as [Hitem Hrest].
  rewrite (jsonLine_exact item Hitem). unfold cartExact in IH.
  rewrite (IH Hrest). reflexivity.
Qed.

(** X6. [proceedToCheckout] refuses an empty cart, leaving the store as it
    was.  A cart with lines whose numbers are all finite and no negative
    zero is stored: the text written parses back to that very cart, and the
    checkout page of a signed-in patient then opens on exactly it, the
    orders and the email being left as they were. *)
Theorem proceedToCheckout_round_trip (cart : list CartItem.t) (b : Browser) :
  isAuthenticated (auth b) = Some "true" ->
  cartExact cart = true ->
  (cart = [] ->
   proceedToCheckout cart (data b) = (data b, Alert "Your cart is empty"))
  /\ (cart <> [] ->
      snd (proceedToCheckout cart (data b)) = Navigate "/checkout"
      /\ jsonCart cart
         = Some (fst (checkoutMount
                        (onData (fun ls => fst (proceedToCheckout cart ls)) b)))
      /\ checkoutMount (onData (fun ls => fst (proceedToCheckout cart ls)) b)
         = (cart, Silent)
      /\ allOrders (fst (proceedToCheckout cart (data b))) = allOrders (data b)
      /\ userEmail (fst (proceedToCheckout cart (data b))) = userEmail (data b)).
Proof.
  intros Hauth Hexact. split.
  - intros Hempty. subst cart. reflexivity.
  - intros Hlines.
    destruct (proceedToCheckout_stores cart b Hauth Hlines)
      as [Hgo [Hmount [Horders Hemail]]].
    repeat apply conj; try assumption.
    rewrite Hmount. apply jsonCart_exact. exact Hexact.
Qed.

(** X7. [handlePayment] on a store without order collection starts one that
    holds the new order alone; on an unreadable collection it gives up with
    the failure alert and leaves the whole store as it was, so the checkout
    page still opens on the stored cart and the payment can be tried
    again. *)
Theorem handlePayment_missing_or_unreadable (cartItems : list CartItem.t) (now : Z)
    (nowISO : string) (b : Browser) :
  (allOrders (data b) = Absent ->
   allOrders (fst (handlePayment cartItems now nowISO (data b)))
   = Json [newOrder cartItems now nowISO (userEmail (data b))])
  /\ (allOrders (data b) = Malformed ->
      handlePayment cartItems now nowISO (data b)
      = (data b, Alert "Payment failed. Please try again.")
      /\ checkoutMount (onData (fun ls => fst (handlePayment cartItems now nowISO ls)) b)
         = checkoutMount b
      /\ orderSuccessMount
           (onData (fun ls => fst (handlePayment cartItems now nowISO ls)) b)
         = orderSuccessMount b).
Proof.
  unfold checkoutMount, orderSuccessMount, onData, handlePayment. cbn [auth data].
  split; intros Hstored; rewrite Hstored; repeat apply conj; reflexivity.
Qed.

(** X8. The order a payment creates is the cart's: for a signed-in patient
    with a readable order collection and a cart with lines, the numbers of
    the cart, its total and that total plus the shipping fee being finite
    and no negative zero, going to checkout, opening the checkout page and
    paying appends one order after the orders already stored; its items are
    the cart, its subtotal the total the dashboard showed, its total that
    plus the shipping fee, its owner the stored email, its id [MOCA-]
    followed by the clock reading; the items and the three money fields are
    read from the store as they were written, and the order's total equals
    its subtotal plus its shipping fee. *)
Theorem cart_becomes_order (cart : list CartItem.t) (now : Z) (nowISO : string)
    (b : Browser) :
  isAuthenticated (auth b) = Some "true" ->
  allOrders (data b) <> Malformed ->
  cart <> [] ->
  cartExact cart = true ->
  jsonExact (cartTotal cart) = true ->
  jsonExact (Num.add (cartTotal cart) shippingFee) = true ->
  let b1 := onData (fun ls => fst (proceedToCheckout cart ls)) b in
  let paid := fst (handlePayment (fst (checkoutMount b1)) now nowISO (data b1)) in
  exists order,
    allOrders paid = Json (storedOrders (data b) ++ [order])
    /\ Order.items order = cart
    /\ Order.subtotal order = cartTotal cart
    /\ Order.total order = Num.add (cartTotal cart) shippingFee
    /\ Order.patientEmail order = userEmail (data b)
    /\ Order.id order = ("MOCA-" ++ string_of_Z now)%string
    /\ Order.createdAt order = nowISO
    /\ jsonCart (Order.items order) = Some cart
    /\ jsonNumber (Order.subtotal order) = Some (cartTotal cart)
    /\ jsonNumber (Order.shippingFee order) = Some (Num.decimal 3300 2)
    /\ jsonNumber (Order.total order) = Some (Num.add (cartTotal cart) shippingFee)
    /\ totalEquation order = true.
Proof.
  intros Hauth Hreadable Hlines Hexact Hsubtotal Htotal b1 paid.
  destruct (proceedToCheckout_stores cart b Hauth Hlines)
    as [_ [Hmount [Horders Hemail]]].
  subst paid. fold b1 in Hmount. rewrite Hmount. cbn [fst].
  assert (Hdata : data b1 = fst (proceedToCheckout cart (data b))) by reflexivity.
  rewrite handlePayment_places by (rewrite Hdata, Horders; exact Hreadable).
  exists (newOrder cart now nowISO (userEmail (data b))).
  cbn [fst allOrders].
  assert (Hsame : storedOrders (data b1) = storedOrders (data b))
    by (unfold storedOrders; rewrite Hdata, Horders; reflexivity).
  rewrite Hsame, Hdata, Hemail.
  repeat apply conj; try reflexivity.
  - apply jsonCart_exact. exact Hexact.
  - apply jsonNumber_exact. exact Hsubtotal.
  - apply jsonNumber_exact. exact Htotal.
  - apply total_consistent_eqb; [reflexivity |].
    apply jsonExact_not_nan. exact Htotal.
Qed.

(** X9. After a payment on a readable collection the success page of a
    signed-in patient shows the order that was just appended, and the
    checkout page, opened again, finds no cart and sends to the dashboard. *)
Theorem after_payment_pages (cartItems : list CartItem.t) (now : Z) (nowISO : string)
    (b : Browser) :
  isAuthenticated (auth b) = Some "true" ->
  allOrders (data b) <> Malformed ->
  let paid := onData (fun ls => fst (handlePayment cartItems now nowISO ls)) b in
  exists order,
    orderSuccessMount paid = (Some order, Silent)
    /\ allOrders (data paid) = Json (storedOrders (data b) ++ [order])
    /\ checkoutMount paid = ([], Navigate "/dashboard").
Proof.
  intros Hauth Hreadable paid.
  exists (newOrder cartItems now nowISO (userEmail (data b))).
  subst paid. unfold orderSuccessMount, checkoutMount, onData. cbn [auth data].
  rewrite Hauth, handlePayment_places by exact Hreadable.
  repeat apply conj; reflexivity.
Qed.

(** ** The cart over time *)

Lemma bump_same_ids (p : Prescription.t) (cart : list CartItem.t) :
  map (fun item => CartItem.prescription item)
    (map (fun item => if same_prescription p item then bump p item else item) cart)
  = map (fun item => CartItem.prescription item) cart.
Proof.
  induction cart as [| item cart IH]; simpl; [reflexivity |].
  rewrite IH. destruct (same_prescription p item); reflexivity.
Qed.

Lemma addToCart_well_formed (cart : list CartItem.t) (p : Prescription.t) :
  cartWellFormed cart -> cartWellFormed (fst (addToCart cart p)).
Proof.
  unfold cartWellFormed. intros [Hdistinct Heligible]. unfold addToCart.
  destruct (Prescription.status p) eqn:Hstatus; simpl;
    try (split; assumption).
  destruct (Num.eqb (Prescription.repeats p) Num.zero) eqn:Hrepeats; simpl;
    [split; assumption |].
  destruct (find (same_prescription p) cart) as [found |] eqn:Hfind; simpl.
  - split.
    + rewrite <- (map_map (fun item => CartItem.prescription item) Prescription.id).
      rewrite bump_same_ids. rewrite map_map. exact Hdistinct.
    + rewrite Forall_forall in *. intros item Hin.
      apply in_map_iff in Hin. destruct Hin as [old [Hitem Hold]].
      specialize (Heligible old Hold).
      destruct (same_prescription p old); subst item; exact Heligible.
  - split.
    + rewrite map_app. simpl.
      apply (Permutation_NoDup (Permutation_cons_append _ _)).
      constructor; [| exact Hdistinct].
      intros Hin. apply in_map_iff in Hin. destruct Hin as [item [Hid Hitem]].
      exact (proj1 (find_same_prescription_none p cart) Hfind item Hitem Hid).
    + apply Forall_app. split; [exact Heligible |].
      constructor; [| constructor]. simpl. split; assumption.
Qed.

(** X10. However prescriptions are added, starting from the empty cart, no
    two lines of the cart carry the same prescription id, and every line is
    for an active prescription with repeats left. *)
Theorem cart_stays_well_formed (added : list Prescription.t) :
  cartWellFormed (fold_left (fun cart p => fst (addToCart cart p)) added []).
Proof.
  assert (Hgeneral : forall cart, cartWellFormed cart ->
            cartWellFormed (fold_left (fun cart p => fst (addToCart cart p)) added cart)).
  { induction added as [| p added IH]; intros cart Hcart; simpl; [exact Hcart |].
    apply IH. apply addToCart_well_formed. exact Hcart. }
  apply Hgeneral. split; constructor.
Qed.

(** X11. Adding an eligible prescription that the cart does not hold yet
    makes the cart one line longer and raises the total the dashboard shows
    by the prescription's price times its full quantity. *)
Theorem addToCart_new_line_total (cart : list CartItem.t) (p : Prescription.t) :
  Prescription.status p = active ->
  Num.eqb (Prescription.repeats p) Num.zero = false ->
  (forall item, In item cart ->
     Prescription.id (CartItem.prescription item) <> Prescription.id p) ->
  List.length (fst (addToCart cart p)) = S (List.length cart)
  /\ cartTotal (fst (addToCart cart p))
     = Num.add (cartTotal cart)
         (Num.mul (Prescription.price p) (Prescription.quantity p))
  /\ snd (addToCart cart p) = Alert "Added to cart!".
Proof.
  intros Hactive Hrepeats Hnew. unfold addToCart.
  rewrite Hactive, Hrepeats. simpl.
  rewrite (proj2 (find_same_prescription_none p cart) Hnew). simpl.
  repeat apply conj.
  - rewrite List.length_app. simpl. lia.
  - apply fold_left_line_totals_app.
  - reflexivity.
Qed.

(** ** A new order in the patient's list *)

Lemma ownedBy_other (email other : string) (order : Order.t) :
  Order.patientEmail order = Some email -> other <> email ->
  ownedBy other order = false.
Proof.
  intros Howner Hother. unfold ownedBy. rewrite Howner.
  apply String.eqb_neq. congruence.
Qed.

(** X12. An order paid under the stored email [E] appears in the list of
    patient [E], and the list of every other patient stays as it was. *)
Theorem new_order_reaches_its_owner (getTime : string -> option Z)
    (cartItems : list CartItem.t) (now : Z) (nowISO : string) (ls : LocalStorage)
    (E : string) :
  allOrders ls <> Malformed ->
  userEmail ls = Some E ->
  In (newOrder cartItems now nowISO (Some E))
    (loadPatientOrders getTime E (fst (handlePayment cartItems now nowISO ls)))
  /\ (forall other, other <> E ->
        loadPatientOrders getTime other (fst (handlePayment cartItems now nowISO ls))
        = loadPatientOrders getTime other ls).
Proof.
  intros Hreadable Hemail.
  rewrite handlePayment_places by exact Hreadable. rewrite Hemail.
  unfold loadPatientOrders. cbn [fst allOrders]. split.
  - apply (Permutation_in _ (Permutation_sym (Array_sort_Permutation _ _ _))).
    apply filter_In. split.
    + apply in_or_app. right. left. reflexivity.
    + unfold ownedBy. simpl. apply String.eqb_refl.
  - intros other Hother. rewrite filter_app. simpl.
    rewrite (ownedBy_other E other) by (reflexivity || exact Hother).
    rewrite app_nil_r. unfold storedOrders.
    destruct (allOrders ls) as [| | orders]; reflexivity.
Qed.

(** ** The admin dashboard over time *)

Section AdminFacts.

Variable getTime : string -> option Z.

Lemma insert_before_map {A : Type} (cmp : A -> A -> Z) (f : A -> A) (x : A) (l : list A) :
  (forall a b, cmp (f a) (f b) = cmp a b) ->
  insert_before cmp (f x) (map f l) = map f (insert_before cmp x l).
Proof.
  intros Hcmp. induction l as [| y l IH]; simpl; [reflexivity |].
  rewrite Hcmp. destruct (0 <? cmp x y)%Z; simpl; [rewrite IH |]; reflexivity.
Qed.

Lemma Array_sort_map {A : Type} (cmp : A -> A -> Z) (f : A -> A) (l : list A) :
  (forall a b, cmp (f a) (f b) = cmp a b) ->
  Array_sort cmp (map f l) = map f (Array_sort cmp l).
Proof.
  intros Hcmp. induction l as [| x l IH]; simpl; [reflexivity |].
  rewrite IH. apply insert_before_map. exact Hcmp.
Qed.

Lemma filter_map_same {A : Type} (keep : A -> bool) (f : A -> A) (l : list A) :
  (forall a, keep (f a) = keep a) ->
  filter keep (map f l) = map f (filter keep l).
Proof.
  intros Hkeep. induction l as [| x l IH]; simpl; [reflexivity |].
  rewrite Hkeep, IH. destruct (keep x); reflexivity.
Qed.

Lemma toProcessing_createdAt (orderId : string) (order : Order.t) :
  Order.createdAt (toProcessing orderId order) = Order.createdAt order.
Proof. unfold toProcessing. destruct (Order.id order =? orderId)%string; reflexivity. Qed.

Lemma toShipped_createdAt (orderId t : string) (order : Order.t) :
  Order.createdAt (toShipped orderId t order) = Order.createdAt order.
Proof. unfold toShipped. destruct (Order.id order =? orderId)%string; reflexivity. Qed.

Lemma toProcessing_id (orderId : string) (order : Order.t) :
  Order.id (toProcessing orderId order) = Order.id order.
Proof. unfold toProcessing. destruct (Order.id order =? orderId)%string; reflexivity. Qed.

Lemma toShipped_id (orderId t : string) (order : Order.t) :
  Order.id (toShipped orderId t order) = Order.id order.
Proof. unfold toShipped. destruct (Order.id order =? orderId)%string; reflexivity. Qed.

Lemma toProcessing_newestFirst (orderId : string) (a b : Order.t) :
  newestFirst getTime (toProcessing orderId a) (toProcessing orderId b)
  = newestFirst getTime a b.
Proof. unfold newestFirst. rewrite !toProcessing_createdAt. reflexivity. Qed.

Lemma toShipped_newestFirst (orderId t : string) (a b : Order.t) :
  newestFirst getTime (toShipped orderId t a) (toShipped orderId t b)
  = newestFirst getTime a b.
Proof. unfold newestFirst. rewrite !toShipped_createdAt. reflexivity. Qed.

Lemma toProcessing_ownedBy (orderId email : string) (order : Order.t) :
  ownedBy email (toProcessing orderId order) = ownedBy email order.
Proof. unfold toProcessing. destruct (Order.id order =? orderId)%string; reflexivity. Qed.

Lemma toShipped_ownedBy (orderId t email : string) (order : Order.t) :
  ownedBy email (toShipped orderId t order) = ownedBy email order.
Proof. unfold toShipped. destruct (Order.id order =? orderId)%string; reflexivity. Qed.

(** X13. Without a stored order collection both transitions return at once
    and tell the admin nothing; on an unreadable collection both alert the
    error; in either case the store is left as it was and the displayed
    list is not touched. *)
Theorem transitions_without_collection (random : number) (orderId : string)
    (ls : LocalStorage) :
  (allOrders ls = Absent ->
   markAsProcessing getTime orderId ls = mkTransition ls None Silent
   /\ markAsShipped getTime random orderId ls = mkTransition ls None Silent)
  /\ (allOrders ls = Malformed ->
      markAsProcessing getTime orderId ls
      = mkTransition ls None (Alert "Error updating order status")
      /\ markAsShipped getTime random orderId ls
         = mkTransition ls None (Alert "Error updating order status")).
Proof.
  unfold markAsProcessing, markAsShipped.
  split; intros Hstored; rewrite Hstored; split; reflexivity.
Qed.

Lemma toProcessing_twice (orderId : string) (order : Order.t) :
  toProcessing orderId (toProcessing orderId order) = toProcessing orderId order.
Proof.
  unfold toProcessing.
  destruct (Order.id order =? orderId)%string eqn:Hid; simpl; rewrite Hid; reflexivity.
Qed.

Lemma toShipped_twice (orderId t1 t2 : string) (order : Order.t) :
  toShipped orderId t2 (toShipped orderId t1 order) = toShipped orderId t2 order.
Proof.
  unfold toShipped.
  destruct (Order.id order =? orderId)%string eqn:Hid; simpl; rewrite Hid; reflexivity.
Qed.

Lemma map_twice {A : Type} (f g h : A -> A) (l : list A) :
  (forall a, g (f a) = h a) -> map g (map f l) = map h l.
Proof. intros Hgf. rewrite map_map. apply map_ext. exact Hgf. Qed.

(** X14. Marking an order as processing twice leaves the store as marking
    it once does.  Marking it as shipped twice leaves the store as the
    second marking alone does: the second tracking number replaces the
    first. *)
Theorem transitions_repeated (random1 random2 : number) (orderId : string)
    (ls : LocalStorage) :
  storage (markAsProcessing getTime orderId
             (storage (markAsProcessing getTime orderId ls)))
  = storage (markAsProcessing getTime orderId ls)
  /\ storage (markAsShipped getTime random2 orderId
                (storage (markAsShipped getTime random1 orderId ls)))
     = storage (markAsShipped getTime random2 orderId ls).
Proof.
  unfold markAsProcessing, markAsShipped.
  destruct (allOrders ls) as [| | orders] eqn:Hstored; simpl; rewrite ?Hstored; simpl;
    try (split; reflexivity).
  unfold persist. simpl. split; f_equal; f_equal; apply map_twice.
  - apply toProcessing_twice.
  - apply toShipped_twice.
Qed.

Lemma toProcessing_toShipped_commute (id1 id2 t : string) (order : Order.t) :
  id1 <> id2 ->
  toProcessing id1 (toShipped id2 t order) = toShipped id2 t (toProcessing id1 order).
Proof.
  intros Hids. unfold toProcessing, toShipped.
  destruct (String.eqb_spec (Order.id order) id1) as [H1 | H1];
    destruct (String.eqb_spec (Order.id order) id2) as [H2 | H2]; simpl;
    try (exfalso; congruence);
    repeat match goal with
           | |- context [(Order.id order =? ?i)%string] =>
               destruct (String.eqb_spec (Order.id order) i); try contradiction
           end; reflexivity.
Qed.

Lemma toShipped_toShipped_commute (id1 id2 t1 t2 : string) (order : Order.t) :
  id1 <> id2 ->
  toShipped id1 t1 (toShipped id2 t2 order) = toShipped id2 t2 (toShipped id1 t1 order).
Proof.
  intros Hids. unfold toShipped.
  destruct (String.eqb_spec (Order.id order) id1) as [H1 | H1];
    destruct (String.eqb_spec (Order.id order) id2) as [H2 | H2]; simpl;
    try (exfalso; congruence);
    repeat match goal with
           | |- context [(Order.id order =? ?i)%string] =>
               destruct (String.eqb_spec (Order.id order) i); try contradiction
           end; reflexivity.
Qed.

(** X15. Transitions on orders with different ids can be done in either
    order: the store ends up the same. *)
Theorem transitions_commute (random1 random2 : number) (id1 id2 : string)
    (ls : LocalStorage) :
  id1 <> id2 ->
  storage (markAsProcessing getTime id1 (storage (markAsShipped getTime random2 id2 ls)))
  = storage (markAsShipped getTime random2 id2 (storage (markAsProcessing getTime id1 ls)))
  /\ storage (markAsShipped getTime random1 id1
                (storage (markAsShipped getTime random2 id2 ls)))
     = storage (markAsShipped getTime random2 id2
                  (storage (markAsShipped getTime random1 id1 ls))).
Proof.
  intros Hids. unfold markAsProcessing, markAsShipped.
  destruct (allOrders ls) as [| | orders] eqn:Hstored; simpl; rewrite ?Hstored; simpl;
    try (split; reflexivity).
  unfold persist. simpl. split; f_equal; f_equal; rewrite !map_map; apply map_ext;
    intros order.
  - apply toProcessing_toShipped_commute. exact Hids.
  - apply toShipped_toShipped_commute. exact Hids.
Qed.

(** X16. What a transition hands to the admin's table is what reloading the
    page would show, and it is the table as it was with the transition
    applied row by row: no row changes place. *)
Theorem transition_refreshes_table (random : number) (orderId : string)
    (ls : LocalStorage) (orders : list Order.t) :
  allOrders ls = Json orders ->
  (ordersState (markAsProcessing getTime orderId ls)
   = Some (loadOrders getTime (storage (markAsProcessing getTime orderId ls)))
   /\ ordersState (markAsProcessing getTime orderId ls)
      = Some (map (toProcessing orderId) (loadOrders getTime ls)))
  /\ (ordersState (markAsShipped getTime random orderId ls)
      = Some (loadOrders getTime (storage (markAsShipped getTime random orderId ls)))
      /\ ordersState (markAsShipped getTime random orderId ls)
         = Some (map (toShipped orderId (generateTrackingNumber random))
                   (loadOrders getTime ls))).
Proof.
  intros Hstored. unfold markAsProcessing, markAsShipped, loadOrders.
  rewrite Hstored. simpl. repeat apply conj; try reflexivity; f_equal.
  - apply Array_sort_map. apply toProcessing_newestFirst.
  - apply Array_sort_map. apply toShipped_newestFirst.
Qed.

(** X17. The admin's table holds every stored order, each as often as it
    is stored, whatever the dates; where the dates are valid it is newest
    first, orders of one creation time standing as the collection has
    them.  With no collection, or an unreadable one, the table is empty. *)
Theorem loadOrders_table (ls : LocalStorage) :
  Permutation (loadOrders getTime ls) (storedOrders ls)
  /\ (Forall (validDate getTime) (storedOrders ls) ->
      StronglySorted (notOlder getTime) (loadOrders getTime ls)
      /\ forall t,
           filter (createdAtTime getTime t) (loadOrders getTime ls)
           = filter (createdAtTime getTime t) (storedOrders ls))
  /\ (allOrders ls = Absent \/ allOrders ls = Malformed -> loadOrders getTime ls = []).
Proof.
  unfold loadOrders, storedOrders. repeat apply conj.
  - destruct (allOrders ls) as [| | orders]; try apply perm_nil.
    apply Array_sort_Permutation.
  - intros Hvalid. destruct (allOrders ls) as [| | orders];
      try (split; [constructor | reflexivity]).
    rewrite (sorted_valid_orders getTime orders Hvalid). split.
    + apply (Array_sort_sorted _ (createdTime getTime)).
    + intros t. apply (Array_sort_stable _ (createdTime getTime)).
  - intros [Hstored | Hstored]; rewrite Hstored; reflexivity.
Qed.

Lemma loadPatientOrders_after_transition (random : number) (orderId email : string)
    (ls : LocalStorage) :
  loadPatientOrders getTime email (storage (markAsProcessing getTime orderId ls))
  = map (toProcessing orderId) (loadPatientOrders getTime email ls)
  /\ loadPatientOrders getTime email (storage (markAsShipped getTime random orderId ls))
     = map (toShipped orderId (generateTrackingNumber random))
         (loadPatientOrders getTime email ls).
Proof.
  unfold markAsProcessing, markAsShipped, loadPatientOrders.
  destruct (allOrders ls) as [| | orders] eqn:Hstored; simpl; rewrite ?Hstored;
    try (split; reflexivity).
  split.
  - rewrite filter_map_same by (intros order; apply toProcessing_ownedBy).
    apply Array_sort_map. apply toProcessing_newestFirst.
  - rewrite filter_map_same by (intros order; apply toShipped_ownedBy).
    apply Array_sort_map. apply toShipped_newestFirst.
Qed.

(** X18. A transition shows in every patient's list as the same transition
    applied to the orders the list held: no order enters or leaves a list
    or changes place in it. *)
Theorem transitions_in_patient_list (random : number) (orderId email : string)
    (ls : LocalStorage) :
  loadPatientOrders getTime email (storage (markAsProcessing getTime orderId ls))
  = map (toProcessing orderId) (loadPatientOrders getTime email ls)
  /\ loadPatientOrders getTime email (storage (markAsShipped getTime random orderId ls))
     = map (toShipped orderId (generateTrackingNumber random))
         (loadPatientOrders getTime email ls).
Proof. apply loadPatientOrders_after_transition. Qed.

(** X19. Once an order is marked as shipped, the owner's order card shows
    the tracking number that was generated and the admin's row shows it
    after [Tracking: ]; an order as checkout creates it shows none. *)
Theorem shipped_order_shows_tracking (random : number) (orderId email : string)
    (ls : LocalStorage) :
  Forall (fun order =>
            Order.id order = orderId ->
            trackingShown order = Some (generateTrackingNumber random)
            /\ getOrderActions order
               = TrackingText ("Tracking: " ++ generateTrackingNumber random))
    (loadPatientOrders getTime email
       (storage (markAsShipped getTime random orderId ls)))
  /\ forall cartItems now nowISO owner,
       trackingShown (newOrder cartItems now nowISO owner) = None.
Proof.
  split; [| reflexivity].
  rewrite (proj2 (loadPatientOrders_after_transition random orderId email ls)).
  apply Forall_forall. intros order Hin Hid.
  apply in_map_iff in Hin. destruct Hin as [old [Hold _]].
  assert (Hmatch : Order.id old = orderId)
    by (rewrite <- (toShipped_id orderId (generateTrackingNumber random) old), Hold;
        exact Hid).
  rewrite (toShipped_match _ _ _ Hmatch) in Hold. subst order.
  unfold trackingShown, getOrderActions. simpl. split; reflexivity.
Qed.

End AdminFacts.

(** ** Order ids *)

Lemma numeral_value_app (D rest : string) (acc : Z) :
  numeral_value (D ++ rest) acc = numeral_value rest (numeral_value D acc).
Proof.
  revert acc. induction D as [| c D IH]; intros acc; simpl; [reflexivity |].
  apply IH.
Qed.

Lemma string_app_assoc (a b c : string) :
  ((a ++ b) ++ c = a ++ (b ++ c))%string.
Proof. induction a as [| x a IH]; simpl; [reflexivity | rewrite IH; reflexivity]. Qed.

Lemma string_app_nil_r (a : string) : (a ++ "" = a)%string.
Proof. induction a as [| x a IH]; simpl; [reflexivity | rewrite IH; reflexivity]. Qed.

Lemma digit_char_value (d : Z) :
  (0 <= d <= 9)%Z -> (Z.of_nat (nat_of_ascii (digit_char d)) - 48 = d)%Z.
Proof.
  intros Hd.
  assert (Hcases : (d = 0 \/ d = 1 \/ d = 2 \/ d = 3 \/ d = 4 \/ d = 5 \/ d = 6
                    \/ d = 7 \/ d = 8 \/ d = 9)%Z) by lia.
  repeat (destruct Hcases as [Hcases | Hcases]; [subst d; reflexivity |]).
  subst d. reflexivity.
Qed.

(** The digits [decimal_digits] writes in front of [acc] spell [n]. *)
Lemma decimal_digits_spells (fuel : nat) :
  forall (n : Z) (acc : string),
    (0 <= n < 10 ^ Z.of_nat fuel)%Z ->
    exists D (p : Z),
      decimal_digits fuel n acc = (D ++ acc)%string
      /\ forall a, numeral_value D a = (a * p + n)%Z.
Proof.
  induction fuel as [| fuel IH]; intros n acc Hn.
  - exists ""%string, 1%Z. simpl in *. split; [reflexivity |]. intros a. lia.
  - rewrite decimal_digits_step.
    pose proof (Z.div_mod n 10 ltac:(lia)) as Hdiv.
    pose proof (Z.mod_pos_bound n 10 ltac:(lia)) as Hmod.
    destruct (Z.ltb_spec n 10) as [Hsmall | Hlarge].
    + exists (String (digit_char (n mod 10)) ""), 10%Z. split; [reflexivity |].
      intros a. cbn [numeral_value]. rewrite digit_char_value by lia.
      rewrite Z.mod_small by lia. lia.
    + assert (Hrest : (0 <= n / 10 < 10 ^ Z.of_nat fuel)%Z).
      { rewrite Nat2Z.inj_succ, Z.pow_succ_r in Hn by lia.
        split; [apply Z.div_pos; lia |].
        apply Z.div_lt_upper_bound; lia. }
      destruct (IH (n / 10)%Z (String (digit_char (n mod 10)) acc) Hrest)
        as [D [p [Hdigits Hvalue]]].
      exists (D ++ String (digit_char (n mod 10)) "")%string, (p * 10)%Z. split.
      * rewrite Hdigits, string_app_assoc. reflexivity.
      * intros a. rewrite numeral_value_app, Hvalue. cbn [numeral_value].
        rewrite digit_char_value by lia. lia.
Qed.

Lemma log2_fuel_enough (n : Z) :
  (0 <= n)%Z -> (n < 10 ^ Z.of_nat (S (Z.to_nat (Z.log2 n))))%Z.
Proof.
  intros Hn. rewrite Nat2Z.inj_succ, Z2Nat.id by apply Z.log2_nonneg.
  destruct (Z.eq_dec n 0) as [Hzero | Hpos].
  - subst n. simpl. lia.
  - pose proof (Z.log2_spec n ltac:(lia)) as [_ Hlog].
    assert (Hpow : (2 ^ Z.succ (Z.log2 n) <= 10 ^ Z.succ (Z.log2 n))%Z).
    { apply Z.pow_le_mono_l. lia. }
    lia.
Qed.

Lemma string_of_Z_spells (n : Z) :
  (0 <= n)%Z -> numeral_value (string_of_Z n) 0 = n.
Proof.
  intros Hn. unfold string_of_Z.
  replace (n <? 0)%Z with false by (symmetry; apply Z.ltb_ge; lia).
  destruct (decimal_digits_spells (S (Z.to_nat (Z.log2 n))) n ""
              (conj Hn (log2_fuel_enough n Hn))) as [D [p [Hdigits Hvalue]]].
  rewrite Hdigits, string_app_nil_r, Hvalue. lia.
Qed.

Lemma order_id_of_clock (t1 t2 : Z) :
  (0 <= t1)%Z -> (0 <= t2)%Z ->
  ("MOCA-" ++ string_of_Z t1 = "MOCA-" ++ string_of_Z t2)%string -> t1 = t2.
Proof.
  intros H1 H2 Hid. simpl in Hid. injection Hid as Hid.
  rewrite <- (string_of_Z_spells t1 H1), <- (string_of_Z_spells t2 H2), Hid.
  reflexivity.
Qed.

(** X20. Order ids stay put: either transition leaves the ids of the stored
    orders as they were, position by position, and a payment on a readable
    collection adds the id of its clock reading at the end. *)
Theorem order_ids_over_time (getTime : string -> option Z) (random : number)
    (orderId : string) (cartItems : list CartItem.t) (now : Z) (nowISO : string)
    (ls : LocalStorage) :
  map Order.id (storedOrders (storage (markAsProcessing getTime orderId ls)))
  = map Order.id (storedOrders ls)
  /\ map Order.id (storedOrders (storage (markAsShipped getTime random orderId ls)))
     = map Order.id (storedOrders ls)
  /\ (allOrders ls <> Malformed ->
      map Order.id (storedOrders (fst (handlePayment cartItems now nowISO ls)))
      = map Order.id (storedOrders ls) ++ [("MOCA-" ++ string_of_Z now)%string]).
Proof.
  repeat apply conj.
  - unfold markAsProcessing, storedOrders.
    destruct (allOrders ls) as [| | orders] eqn:Hstored; simpl; rewrite ?Hstored;
      try reflexivity.
    rewrite map_map. apply map_ext. intros order. apply toProcessing_id.
  - unfold markAsShipped, storedOrders.
    destruct (allOrders ls) as [| | orders] eqn:Hstored; simpl; rewrite ?Hstored;
      try reflexivity.
    rewrite map_map. apply map_ext. intros order. apply toShipped_id.
  - intros Hreadable. rewrite handlePayment_places by exact Hreadable.
    unfold storedOrders at 1. cbn [fst allOrders]. rewrite map_app. reflexivity.
Qed.

(** X21. Orders paid at different readings of the clock have different
    ids: a collection whose ids are [MOCA-] followed by the readings of a
    list of distinct non-negative clock readings has distinct ids. *)
Theorem distinct_clock_distinct_ids (clock : list Z) (orders : list Order.t) :
  NoDup clock ->
  Forall (fun t => 0 <= t)%Z clock ->
  map Order.id orders = map (fun t => ("MOCA-" ++ string_of_Z t)%string) clock ->
  NoDup (map Order.id orders).
Proof.
  intros Hdistinct Hnonneg Hids. rewrite Hids. clear Hids.
  induction clock as [| t clock IH]; simpl; [constructor |].
  inversion Hdistinct as [| t' clock' Hfresh Hrest]; subst.
  inversion Hnonneg as [| t' clock' Ht Hothers]; subst.
  constructor; [| apply IH; assumption].
  intros Hin. apply in_map_iff in Hin. destruct Hin as [u [Hid Hu]].
  rewrite Forall_forall in Hothers.
  apply order_id_of_clock in Hid; [| apply Hothers; exact Hu | exact Ht].
  subst u. contradiction.
Qed.

(** ** The life of an order, and orders without owner *)

(** X22. An order of the stored collection that awaits payment goes
    through the admin's buttons: after the first press it is stored, at its
    place, with status ['processing'] and otherwise as it was; after the
    press on the processing order it is stored there with status
    ['shipped'] and the tracking number that was generated, which the
    Actions column then shows in place of a button; an order with another
    id is stored after both presses as it was before; and for the shipped
    order pressing changes neither store nor table. *)
Theorem order_lifecycle (getTime : string -> option Z) (random1 random2 random3 : number)
    (order : Order.t) (ls : LocalStorage) (orders : list Order.t) (place : nat) :
  allOrders ls = Json orders ->
  nth_error orders place = Some order ->
  Order.status order = "awaiting_payment" ->
  let processing := with_status order "processing" in
  let shipped :=
    with_status_tracking processing "shipped" (generateTrackingNumber random2) in
  let ls1 := storage (press getTime random1 order ls) in
  let ls2 := storage (press getTime random2 processing ls1) in
  allOrders ls1 = Json (map (toProcessing (Order.id order)) orders)
  /\ nth_error (storedOrders ls1) place = Some processing
  /\ Order.status processing = "processing"
  /\ Order.trackingNumber processing = Order.trackingNumber order
  /\ allOrders ls2
     = Json (map (toShipped (Order.id order) (generateTrackingNumber random2))
               (map (toProcessing (Order.id order)) orders))
  /\ nth_error (storedOrders ls2) place = Some shipped
  /\ Order.status shipped = "shipped"
  /\ Order.trackingNumber shipped = Some (generateTrackingNumber random2)
  /\ same_core order processing
  /\ same_core order shipped
  /\ getOrderActions shipped
     = TrackingText ("Tracking: " ++ generateTrackingNumber random2)%string
  /\ (forall other_place other,
         nth_error orders other_place = Some other ->
         Order.id other <> Order.id order ->
         nth_error (storedOrders ls1) other_place = Some other
         /\ nth_error (storedOrders ls2) other_place = Some other)
  /\ press getTime random3 shipped ls2 = mkTransition ls2 None Silent.
Proof.
  intros Hstored Hplace Hstatus processing shipped ls1 ls2.
  assert (H1 : ls1 = persist ls (map (toProcessing (Order.id order)) orders)).
  { subst ls1. unfold press, getOrderActions. rewrite Hstatus. simpl.
    unfold markAsProcessing. rewrite Hstored. reflexivity. }
  assert (H2 : ls2 = persist ls1
                       (map (toShipped (Order.id order) (generateTrackingNumber random2))
                          (map (toProcessing (Order.id order)) orders))).
  { subst ls2. unfold press, getOrderActions. simpl.
    unfold markAsShipped. rewrite H1. reflexivity. }
  assert (Hstored1 : storedOrders ls1 = map (toProcessing (Order.id order)) orders)
    by (rewrite H1; reflexivity).
  assert (Hstored2 : storedOrders ls2
                     = map (toShipped (Order.id order) (generateTrackingNumber random2))
                         (map (toProcessing (Order.id order)) orders))
    by (rewrite H2; reflexivity).
  assert (Hfirst : nth_error (storedOrders ls1) place = Some processing).
  { rewrite Hstored1, nth_error_map, Hplace. cbn [option_map].
    rewrite toProcessing_match by reflexivity. reflexivity. }
  assert (Hsecond : nth_error (storedOrders ls2) place = Some shipped).
  { rewrite Hstored2, nth_error_map. rewrite <- Hstored1, Hfirst. cbn [option_map].
    rewrite toShipped_match by reflexivity. reflexivity. }
  assert (Hactions : getOrderActions shipped
                     = TrackingText ("Tracking: " ++ generateTrackingNumber random2)%string)
    by reflexivity.
  assert (Hothers : forall other_place other,
             nth_error orders other_place = Some other ->
             Order.id other <> Order.id order ->
             nth_error (storedOrders ls1) other_place = Some other
             /\ nth_error (storedOrders ls2) other_place = Some other).
  { intros other_place other Hother Hid. split.
    - rewrite Hstored1, nth_error_map, Hother. cbn [option_map].
      rewrite toProcessing_other by exact Hid. reflexivity.
    - rewrite Hstored2, !nth_error_map, Hother. cbn [option_map].
      rewrite toProcessing_other by exact Hid.
      rewrite toShipped_other by exact Hid. reflexivity. }
  assert (Hall1 : allOrders ls1 = Json (map (toProcessing (Order.id order)) orders))
    by (rewrite H1; reflexivity).
  assert (Hall2 : allOrders ls2
                  = Json (map (toShipped (Order.id order) (generateTrackingNumber random2))
                            (map (toProcessing (Order.id order)) orders)))
    by (rewrite H2; reflexivity).
  repeat apply conj; first [assumption | reflexivity].
Qed.

(** X23. [handlePayment] does not ask who is signed in: paid while no email
    is stored, the order has no owner, so it is in the admin's table and in
    no patient's list. *)
Theorem order_without_owner (getTime : string -> option Z)
    (cartItems : list CartItem.t) (now : Z) (nowISO : string) (ls : LocalStorage) :
  allOrders ls <> Malformed ->
  userEmail ls = None ->
  In (newOrder cartItems now nowISO None)
    (loadOrders getTime (fst (handlePayment cartItems now nowISO ls)))
  /\ forall email,
       loadPatientOrders getTime email (fst (handlePayment cartItems now nowISO ls))
       = loadPatientOrders getTime email ls.
Proof.
  intros Hreadable Hemail.
  rewrite handlePayment_places by exact Hreadable. rewrite Hemail.
  unfold loadOrders, loadPatientOrders. cbn [fst allOrders]. split.
  - apply (Permutation_in _ (Permutation_sym (Array_sort_Permutation _ _ _))).
    apply in_or_app. right. left. reflexivity.
  - intros email. rewrite filter_app. simpl. rewrite app_nil_r.
    unfold storedOrders. destruct (allOrders ls) as [| | orders]; reflexivity.
Qed.

(** X24. The two sign-ins are independent: signing a patient in or out
    changes nothing of what the admin dashboard does on loading, and
    signing the admin in or out changes nothing of what the patient's
    dashboard, checkout page and success page do on loading. *)
Theorem sign_ins_independent (getTime : string -> option Z)
    (email code password : string) (b : Browser) :
  (adminDashboardMount getTime (fst (handleOtpSubmit email code b))
   = adminDashboardMount getTime b
   /\ adminDashboardMount getTime (fst (handleLogout b))
      = adminDashboardMount getTime b)
  /\ (dashboardMount (fst (fst (handleLogin email password b))) = dashboardMount b
      /\ checkoutMount (fst (fst (handleLogin email password b))) = checkoutMount b
      /\ orderSuccessMount (fst (fst (handleLogin email password b)))
         = orderSuccessMount b)
  /\ (dashboardMount (fst (adminHandleLogout b)) = dashboardMount b
      /\ checkoutMount (fst (adminHandleLogout b)) = checkoutMount b
      /\ orderSuccessMount (fst (adminHandleLogout b)) = orderSuccessMount b).
Proof.
  repeat apply conj; try reflexivity.
  - unfold handleOtpSubmit. destruct (code =? "123456")%string; reflexivity.
  - unfold handleLogin.
    destruct ((email =? "admin@moca.com") && (password =? "password123"))%string;
      reflexivity.
  - unfold handleLogin.
    destruct ((email =? "admin@moca.com") && (password =? "password123"))%string;
      reflexivity.
  - unfold handleLogin.
    destruct ((email =? "admin@moca.com") && (password =? "password123"))%string;
      reflexivity.
Qed.

(** ** Instances *)

Lemma stored_cart_survives_sign_in_witness :
  checkoutMount (fst (handleOtpSubmit "sam@example.com" "123456"
                        (fst (handleLogout midCheckout))))
  = (sampleCart, Silent)
  /\ orderSuccessMount (fst (handleOtpSubmit "sam@example.com" "123456"
                               (fst (handleLogout midCheckout))))
     = (Some sampleOrder1, Silent).
Proof.
  exact (stored_cart_survives_sign_in "sam@example.com" midCheckout sampleCart
           sampleOrder1 eq_refl eq_refl).
Defined.

Lemma proceedToCheckout_round_trip_witness :
  cartExact sampleCart = true
  /\ jsonCart sampleCart
     = Some (fst (checkoutMount
                    (onData (fun ls => fst (proceedToCheckout sampleCart ls)) signedIn)))
  /\ checkoutMount (onData (fun ls => fst (proceedToCheckout sampleCart ls)) signedIn)
     = (sampleCart, Silent).
Proof.
  split; [vm_compute; reflexivity |].
  assert (Hexact : cartExact sampleCart = true) by (vm_compute; reflexivity).
  assert (Hlines : sampleCart <> []) by discriminate.
  destruct (proj2 (proceedToCheckout_round_trip sampleCart signedIn eq_refl Hexact)
              Hlines) as [_ [Hread [Hmount _]]].
  split; [exact Hread | exact Hmount].
Defined.

Lemma cart_becomes_order_witness :
  let b1 := onData (fun ls => fst (proceedToCheckout sampleCart ls)) signedIn in
  let paid := fst (handlePayment (fst (checkoutMount b1)) 1705314800000
                     "2024-01-15T10:33:20.000Z" (data b1)) in
  exists order,
    allOrders paid = Json (storedOrders (data signedIn) ++ [order])
    /\ Order.items order = sampleCart
    /\ Order.subtotal order = cartTotal sampleCart
    /\ Order.total order = Num.add (cartTotal sampleCart) shippingFee
    /\ Order.patientEmail order = userEmail (data signedIn)
    /\ Order.id order = ("MOCA-" ++ string_of_Z 1705314800000)%string
    /\ Order.createdAt order = "2024-01-15T10:33:20.000Z"
    /\ jsonCart (Order.items order) = Some sampleCart
    /\ jsonNumber (Order.subtotal order) = Some (cartTotal sampleCart)
    /\ jsonNumber (Order.shippingFee order) = Some (Num.decimal 3300 2)
    /\ jsonNumber (Order.total order) = Some (Num.add (cartTotal sampleCart) shippingFee)
    /\ totalEquation order = true.
Proof.
  apply (cart_becomes_order sampleCart 1705314800000 "2024-01-15T10:33:20.000Z"
           signedIn eq_refl);
    [discriminate | discriminate | vm_compute; reflexivity | vm_compute; reflexivity
    | vm_compute; reflexivity].
Defined.

Lemma after_payment_pages_witness :
  let paid := onData (fun ls => fst (handlePayment sampleCart 1705314800000
                                       "2024-01-15T10:33:20.000Z" ls)) signedIn in
  exists order,
    orderSuccessMount paid = (Some order, Silent)
    /\ allOrders (data paid) = Json (storedOrders (data signedIn) ++ [order])
    /\ checkoutMount paid = ([], Navigate "/dashboard").
Proof.
  apply (after_payment_pages sampleCart 1705314800000 "2024-01-15T10:33:20.000Z"
           signedIn eq_refl).
  discriminate.
Defined.

Lemma addToCart_new_line_total_witness :
  List.length (fst (addToCart [CartItem.mk rx002 (Num.of_Z 30)] rx001)) = 2
  /\ cartTotal (fst (addToCart [CartItem.mk rx002 (Num.of_Z 30)] rx001))
     = Num.add (cartTotal [CartItem.mk rx002 (Num.of_Z 30)])
         (Num.mul (Prescription.price rx001) (Prescription.quantity rx001))
  /\ snd (addToCart [CartItem.mk rx002 (Num.of_Z 30)] rx001) = Alert "Added to cart!".
Proof.
  apply (addToCart_new_line_total [CartItem.mk rx002 (Num.of_Z 30)] rx001
           eq_refl eq_refl).
  intros item [Hitem | []]. subst item. discriminate.
Defined.

Lemma new_order_reaches_its_owner_witness :
  In (newOrder sampleCart 1705314800000 "2024-01-15T10:33:20.000Z"
        (Some "pat@example.com"))
    (loadPatientOrders isoTime "pat@example.com"
       (fst (handlePayment sampleCart 1705314800000 "2024-01-15T10:33:20.000Z"
               sampleStore)))
  /\ (forall other, other <> "pat@example.com" ->
        loadPatientOrders isoTime other
          (fst (handlePayment sampleCart 1705314800000 "2024-01-15T10:33:20.000Z"
                  sampleStore))
        = loadPatientOrders isoTime other sampleStore).
Proof.
  apply (new_order_reaches_its_owner isoTime sampleCart 1705314800000
           "2024-01-15T10:33:20.000Z" sampleStore "pat@example.com").
  - discriminate.
  - reflexivity.
Defined.

Lemma transitions_commute_witness :
  storage (markAsProcessing isoTime "MOCA-1705314600000"
             (storage (markAsShipped isoTime Num.zero "MOCA-1705314700000" sampleStore)))
  = storage (markAsShipped isoTime Num.zero "MOCA-1705314700000"
               (storage (markAsProcessing isoTime "MOCA-1705314600000" sampleStore))).
Proof.
  apply (transitions_commute isoTime Num.zero Num.zero "MOCA-1705314600000"
           "MOCA-1705314700000" sampleStore).
  discriminate.
Defined.

Lemma transition_refreshes_table_witness :
  ordersState (markAsProcessing isoTime "MOCA-1705314600000" sampleStore)
  = Some (map (toProcessing "MOCA-1705314600000") (loadOrders isoTime sampleStore)).
Proof.
  apply (transition_refreshes_table isoTime Num.zero "MOCA-1705314600000" sampleStore
           [sampleOrder1; sampleOrder2] eq_refl).
Defined.

Lemma distinct_clock_distinct_ids_witness :
  NoDup (map Order.id [sampleOrder1; sampleOrder2]).
Proof.
  apply (distinct_clock_distinct_ids [1705314600000; 1705314700000]%Z
           [sampleOrder1; sampleOrder2]).
  - repeat constructor; simpl; intros H; repeat destruct H as [H | H];
      try discriminate H; exact H.
  - repeat constructor; discriminate.
  - reflexivity.
Defined.

Lemma order_lifecycle_witness :
  let processing := with_status sampleOrder1 "processing" in
  let shipped :=
    with_status_tracking processing "shipped" (generateTrackingNumber Num.zero) in
  let ls1 := storage (press isoTime Num.zero sampleOrder1 sampleStore) in
  let ls2 := storage (press isoTime Num.zero processing ls1) in
  nth_error (storedOrders ls1) 0 = Some processing
  /\ nth_error (storedOrders ls2) 0 = Some shipped
  /\ Order.trackingNumber shipped = Some "ST10000000"
  /\ nth_error (storedOrders ls2) 1 = Some sampleOrder2
  /\ press isoTime Num.zero shipped ls2 = mkTransition ls2 None Silent.
Proof.
  intros processing shipped ls1 ls2.
  pose proof (order_lifecycle isoTime Num.zero Num.zero Num.zero sampleOrder1
                sampleStore [sampleOrder1; sampleOrder2] 0 eq_refl eq_refl eq_refl)
    as Hlife.
  cbv zeta in Hlife.
  destruct Hlife as [_ [Hfirst [_ [_ [_ [Hsecond [_ [_ [_ [_ [_ [Hothers Hstays]]]]]]]]]]]].
  repeat apply conj.
  - exact Hfirst.
  - exact Hsecond.
  - vm_compute. reflexivity.
  - apply (Hothers 1 sampleOrder2 eq_refl). discriminate.
  - exact Hstays.
Defined.

Lemma order_without_owner_witness :
  In (newOrder sampleCart 1705314800000 "2024-01-15T10:33:20.000Z" None)
    (loadOrders isoTime
       (fst (handlePayment sampleCart 1705314800000 "2024-01-15T10:33:20.000Z"
               freshStorage)))
  /\ forall email,
       loadPatientOrders isoTime email
         (fst (handlePayment sampleCart 1705314800000 "2024-01-15T10:33:20.000Z"
                 freshStorage))
       = loadPatientOrders isoTime email freshStorage.
Proof.
  apply (order_without_owner isoTime sampleCart 1705314800000
           "2024-01-15T10:33:20.000Z" freshStorage).
  - discriminate.
  - reflexivity.
Defined.
